(** * netdisco: the discovery coordinator

    A shallow embedding of [netdisco/discovery.py] (class
    [NetworkDiscovery]) and the properties of its lifecycle, of its
    query surface and of the plugin registry it loads.

    The two scanners ([MDNS], [SSDP]) and the discoverable plugins are
    collaborators of the class: they are taken as interfaces.  Every
    method of the class is a computation in a small monad which threads
    the object, may raise a Python exception and records the calls made
    to the two scanners. *)

From Stdlib Require Import Ascii String.
From stdpp Require Import base option list strings gmap.

Local Open Scope string_scope.
Local Open Scope list_scope.
Local Open Scope nat_scope.

(** ** Python strings *)

Module PyStr.

(** The split of [s] at its last occurrence of [sep], if there is one. *)
Fixpoint rsplit_last (sep : ascii) (s : string) : option (string * string) :=
  match s with
  | EmptyString => None
  | String c s' =>
      match rsplit_last sep s' with
      | Some (a, b) => Some (String c a, b)
      | None => if Ascii.eqb c sep then Some (EmptyString, s') else None
      end
  end.

(** [s.rsplit(sep, 1)]: at most one split, taken from the right. *)
Definition rsplit (s : string) (sep : ascii) : list string :=
  match rsplit_last sep s with
  | Some (a, b) => [a; b]
  | None => [s]
  end.

(** [s.endswith(suffix)] *)
Fixpoint endswith (s suffix : string) : bool :=
  if String.eqb s suffix then true
  else match s with
       | EmptyString => false
       | String _ s' => endswith s' suffix
       end.

(** [c in s] for a one-character [c]. *)
Fixpoint contains (c : ascii) (s : string) : bool :=
  match s with
  | EmptyString => false
  | String c' s' => Ascii.eqb c' c || contains c s'
  end.

End PyStr.

(** ** Python dictionaries with string keys

    A [dict] keeps its keys in insertion order; assigning to a key that
    is present replaces the value in place. *)

Module PyDict.

Section Dict.
Context {V : Type}.

(** [d[k]], [None] standing for the [KeyError]. *)
Fixpoint getitem (d : list (string * V)) (k : string) : option V :=
  match d with
  | [] => None
  | (k', v) :: d' => if String.eqb k' k then Some v else getitem d' k
  end.

(** [d[k] = v] *)
Fixpoint setitem (d : list (string * V)) (k : string) (v : V) : list (string * V) :=
  match d with
  | [] => [(k, v)]
  | (k', v') :: d' =>
      if String.eqb k' k then (k', v) :: d' else (k', v') :: setitem d' k v
  end.

(** [d.items()] and [d.keys()] *)
Definition items (d : list (string * V)) : list (string * V) := d.

Definition keys (d : list (string * V)) : list string := map fst d.

End Dict.
End PyDict.

(** ** Exceptions, outcomes and the calls made to the scanners *)

Inductive PyExn : Type :=
| RuntimeError (msg : string)
| KeyError (key : string)
| IndexError
| Foreign (cls : string).

Inductive Outcome (A : Type) : Type :=
| Return (a : A)
| Raise (e : PyExn).

Arguments Return {A} a.
Arguments Raise {A} e.

Inductive Call : Type := MdnsStart | MdnsStop | SsdpScan.

#[export] Instance Call_eq_dec : EqDecision Call.
Proof. solve_decision. Defined.

(** The number of times [c] was called in a trace. *)
Definition calls (c : Call) (tr : list Call) : nat :=
  length (filter (λ c', c' = c) tr).

(** A method: from the object before the call to the outcome, the
    object after the call and the scanner calls made, in order.  The
    object after the call is kept when the method raises: Python does
    not undo the assignments made before an exception. *)
Definition Py (St A : Type) : Type := St → Outcome A * St * list Call.

#[export] Instance Py_ret {St} : MRet (Py St) :=
  λ A a st, (Return a, st, []).

#[export] Instance Py_bind {St} : MBind (Py St) :=
  λ A B f m st,
    match m st with
    | (Return a, st', tr) =>
        match f a st' with
        | (r, st'', tr') => (r, st'', tr ++ tr')
        end
    | (Raise e, st', tr) => (Raise e, st', tr)
    end.

(** The object after a call, its outcome and its trace. *)
Definition after {St A} (m : Py St A) (st : St) : St := (m st).1.2.

Definition outcome {St A} (m : Py St A) (st : St) : Outcome A := (m st).1.1.

Definition trace {St A} (m : Py St A) (st : St) : list Call := (m st).2.

Definition raise {St A} (e : PyExn) : Py St A :=
  λ st, (Raise e, st, []).

Definition lift {St A} (o : Outcome A) : Py St A :=
  λ st, (o, st, []).

Definition get_self {St} : Py St St :=
  λ st, (Return st, st, []).

(** [l[i]] on a list, raising [IndexError] out of range. *)
Definition index {St A} (l : list A) (i : nat) : Py St A :=
  match l !! i with
  | Some x => mret x
  | None => raise IndexError
  end.

(** [for x in xs: body(x)] *)
Fixpoint for_each {St A} (xs : list A) (body : A → Py St unit) : Py St unit :=
  match xs with
  | [] => mret tt
  | x :: xs' => body x ;; for_each xs' body
  end.

(** ** The collaborators *)

(** [netdisco.mdns.MDNS]: the background scanner.  A call returns the
    scanner after the call and the exception it raised, if any. *)
Module MDNS.
Class Adapter (Mdns : Type) : Type := {
  new : Mdns;
  start : Mdns → option PyExn * Mdns;
  stop : Mdns → option PyExn * Mdns
}.
End MDNS.

(** [netdisco.ssdp.SSDP]: the foreground scanner. *)
Module SSDP.
Class Adapter (Ssdp : Type) : Type := {
  new : Ssdp;
  scan : Ssdp → option PyExn * Ssdp
}.
End SSDP.

(** A discoverable ([module.Discoverable(netdis)]).  It keeps a
    reference to the coordinator and reads the two scanners through it
    whenever it is asked. *)
Module Checker.
Record t (Mdns Ssdp Info Entry : Type) : Type := {
  is_discovered : Mdns → Ssdp → bool;
  get_info : Mdns → Ssdp → list Info;
  get_entries : Mdns → Ssdp → list Entry
}.
Arguments is_discovered {Mdns Ssdp Info Entry} _ _ _.
Arguments get_info {Mdns Ssdp Info Entry} _ _ _.
Arguments get_entries {Mdns Ssdp Info Entry} _ _ _.
End Checker.

(** ** The class [NetworkDiscovery] *)

Section NetworkDiscovery.
Context {Mdns Ssdp Info Entry : Type}.
Context `{!MDNS.Adapter Mdns} `{!SSDP.Adapter Ssdp}.

(** An imported plugin module; its attribute [Discoverable] applied to
    the coordinator gives a checker or raises. *)
Record PyModule : Type := {
  Discoverable : Outcome (Checker.t Mdns Ssdp Info Entry)
}.

(** What the interpreter gives to the loader: the names
    [pkgutil.walk_packages] yields, in order, and [importlib.import_module]. *)
Record PluginEnv : Type := {
  walk_packages : list string;
  import_module : string → Outcome PyModule
}.

Record NetworkDiscovery : Type := {
  limit_discovery : option (gset string);
  mdns : Mdns;
  ssdp : Ssdp;
  discoverables : list (string * Checker.t Mdns Ssdp Info Entry);
  is_discovering : bool
}.

Definition set_mdns (m : Mdns) : Py NetworkDiscovery unit :=
  λ self, (Return tt,
           {| limit_discovery := limit_discovery self; mdns := m;
              ssdp := ssdp self; discoverables := discoverables self;
              is_discovering := is_discovering self |}, []).

Definition set_ssdp (s : Ssdp) : Py NetworkDiscovery unit :=
  λ self, (Return tt,
           {| limit_discovery := limit_discovery self; mdns := mdns self;
              ssdp := s; discoverables := discoverables self;
              is_discovering := is_discovering self |}, []).

Definition set_discoverables (d : list (string * Checker.t Mdns Ssdp Info Entry))
  : Py NetworkDiscovery unit :=
  λ self, (Return tt,
           {| limit_discovery := limit_discovery self; mdns := mdns self;
              ssdp := ssdp self; discoverables := d;
              is_discovering := is_discovering self |}, []).

Definition set_is_discovering (b : bool) : Py NetworkDiscovery unit :=
  λ self, (Return tt,
           {| limit_discovery := limit_discovery self; mdns := mdns self;
              ssdp := ssdp self; discoverables := discoverables self;
              is_discovering := b |}, []).

(** A call to a scanner: the scanner is updated, the call is recorded,
    and the exception of the scanner, if any, is raised. *)
Definition called (c : Call) (r : option PyExn) : Py NetworkDiscovery unit :=
  λ self, (match r with None => Return tt | Some e => Raise e end, self, [c]).

(** [self.mdns.start()] *)
Definition mdns_start : Py NetworkDiscovery unit :=
  self ← get_self;
  set_mdns (MDNS.start (mdns self)).2 ;;
  called MdnsStart (MDNS.start (mdns self)).1.

(** [self.mdns.stop()] *)
Definition mdns_stop : Py NetworkDiscovery unit :=
  self ← get_self;
  set_mdns (MDNS.stop (mdns self)).2 ;;
  called MdnsStop (MDNS.stop (mdns self)).1.

(** [self.ssdp.scan()] *)
Definition ssdp_scan : Py NetworkDiscovery unit :=
  self ← get_self;
  set_ssdp (SSDP.scan (ssdp self)).2 ;;
  called SsdpScan (SSDP.scan (ssdp self)).1.

(** [scan]: starts and tells scanners to scan. *)
Definition scan : Py NetworkDiscovery unit :=
  self ← get_self;
  (if negb (is_discovering self)
   then mdns_start ;; set_is_discovering true
   else mret tt) ;;
  ssdp_scan.

(** [stop]: turn discovery off. *)
Definition stop : Py NetworkDiscovery unit :=
  self ← get_self;
  if negb (is_discovering self) then mret tt
  else mdns_stop ;; set_is_discovering false.

(** [_check_enabled]: raises [RuntimeError] if discovery is disabled. *)
Definition _check_enabled : Py NetworkDiscovery unit :=
  self ← get_self;
  if negb (is_discovering self)
  then raise (RuntimeError "NetworkDiscovery is disabled")
  else mret tt.

(** [[dis for dis, checker in items if checker.is_discovered()]] *)
Fixpoint discovered (m : Mdns) (s : Ssdp)
    (items : list (string * Checker.t Mdns Ssdp Info Entry)) : list string :=
  match items with
  | [] => []
  | (dis, checker) :: items' =>
      if Checker.is_discovered checker m s
      then dis :: discovered m s items'
      else discovered m s items'
  end.

(** [discover]: the list of discovered devices and services. *)
Definition discover : Py NetworkDiscovery (list string) :=
  _check_enabled ;;
  self ← get_self;
  mret (discovered (mdns self) (ssdp self) (PyDict.items (discoverables self))).

(** [self.discoverables[dis]] *)
Definition subscript (dis : string)
  : Py NetworkDiscovery (Checker.t Mdns Ssdp Info Entry) :=
  self ← get_self;
  match PyDict.getitem (discoverables self) dis with
  | Some checker => mret checker
  | None => raise (KeyError dis)
  end.

(** [get_info]: the most important info about a discovered type. *)
Definition get_info (dis : string) : Py NetworkDiscovery (list Info) :=
  checker ← subscript dis;
  self ← get_self;
  mret (Checker.get_info checker (mdns self) (ssdp self)).

(** [get_entries]: all info about a discovered type. *)
Definition get_entries (dis : string) : Py NetworkDiscovery (list Entry) :=
  checker ← subscript dis;
  self ← get_self;
  mret (Checker.get_entries checker (mdns self) (ssdp self)).

(** The namespace the plugins live in. *)
Definition namespace : string := "netdisco.discoverables".

(** [pkg not in self.limit_discovery], when a limit is given. *)
Definition limited_out (limit : option (gset string)) (pkg : string) : bool :=
  match limit with
  | Some allowed => negb (bool_decide (pkg ∈ allowed))
  | None => false
  end.

(** The key under which the loop of [_load_device_support] registers
    [pkg], when it does not skip it: the part after the last dot, for a
    package whose parent ends with the namespace and which the limit
    lets through. *)
Definition plugin_name (limit : option (gset string)) (pkg : string)
  : option string :=
  let parts := PyStr.rsplit pkg "." in
  parts0 ← parts !! 0;
  if PyStr.endswith parts0 namespace && negb (limited_out limit pkg)
  then parts !! 1
  else None.

(** The body of the loop of [_load_device_support].  In the last
    statement Python evaluates the right-hand side before the key. *)
Definition load_package (env : PluginEnv) (pkg : string)
  : Py NetworkDiscovery unit :=
  let parts := PyStr.rsplit pkg "." in
  parts0 ← index parts 0;
  if negb (PyStr.endswith parts0 namespace) then mret tt
  else
    self ← get_self;
    if limited_out (limit_discovery self) pkg then mret tt
    else
      module ← lift (import_module env pkg);
      checker ← lift (Discoverable module);
      parts1 ← index parts 1;
      self ← get_self;
      set_discoverables (PyDict.setitem (discoverables self) parts1 checker).

(** A package the loop keeps can be imported and gives a checker. *)
Definition loadable (env : PluginEnv) (pkg : string) : Prop :=
  ∃ module checker,
    import_module env pkg = Return module ∧ Discoverable module = Return checker.

(** What the coordinator keeps through the loader: everything but the
    registry. *)
Definition framed (self self' : NetworkDiscovery) : Prop :=
  limit_discovery self' = limit_discovery self
  ∧ mdns self' = mdns self
  ∧ ssdp self' = ssdp self
  ∧ is_discovering self' = is_discovering self.

(** [_load_device_support]: load the devices and services that can be
    discovered. *)
Definition _load_device_support (env : PluginEnv) : Py NetworkDiscovery unit :=
  set_discoverables [] ;;
  for_each (walk_packages env) (load_package env).

(** [NetworkDiscovery(limit_discovery)].  The attribute
    [is_discovering] does not exist before the last statement; no
    loader step reads it. *)
Definition __init__ (env : PluginEnv) (limit : option (gset string))
  : Outcome NetworkDiscovery :=
  let self := {| limit_discovery := limit; mdns := MDNS.new; ssdp := SSDP.new;
                 discoverables := []; is_discovering := false |} in
  match (_load_device_support env ;; set_is_discovering false) self with
  | (Return _, self', _) => Return self'
  | (Raise e, _, _) => Raise e
  end.

(** ** Callers *)

(** The public operations, and a caller that runs them in sequence and
    goes on after an exception. *)
Inductive Op : Type :=
| OpScan
| OpStop
| OpDiscover
| OpGetInfo (dis : string)
| OpGetEntries (dis : string).

Definition forget {A} (m : Py NetworkDiscovery A) : Py NetworkDiscovery unit :=
  λ self, match m self with (_, self', tr) => (Return tt, self', tr) end.

Definition run_op (o : Op) : Py NetworkDiscovery unit :=
  match o with
  | OpScan => forget scan
  | OpStop => forget stop
  | OpDiscover => forget discover
  | OpGetInfo dis => forget (get_info dis)
  | OpGetEntries dis => forget (get_entries dis)
  end.

Definition run_ops (os : list Op) : Py NetworkDiscovery unit :=
  for_each os run_op.

(** [n] consecutive calls of [scan]. *)
Fixpoint scan_times (n : nat) : Py NetworkDiscovery unit :=
  match n with
  | 0 => mret tt
  | S n' => scan ;; scan_times n'
  end.

End NetworkDiscovery.

#[export] Instance Op_eq_dec : EqDecision Op.
Proof. solve_decision. Defined.

(** The number of times [o] occurs in a sequence of operations. *)
Definition occurrences (o : Op) (ops : list Op) : nat :=
  length (filter (λ o', o' = o) ops).

Arguments PyModule : clear implicits.
Arguments PluginEnv : clear implicits.
Arguments NetworkDiscovery : clear implicits.

(** ** Stub collaborators

    A background scanner whose store is seeded with one record, a
    foreground scanner that counts its rounds, a foreground scanner
    whose round trip always times out, and two discoverable types. *)

Module Stub.

Record Mdns : Type := { running : bool; store : list string }.

#[global] Instance mdns_adapter : MDNS.Adapter Mdns := {|
  MDNS.new := {| running := false; store := ["printer"] |};
  MDNS.start m := (None, {| running := true; store := store m |});
  MDNS.stop m := (None, {| running := false; store := store m |})
|}.

Record Ssdp : Type := { rounds : nat }.

#[global] Instance ssdp_adapter : SSDP.Adapter Ssdp := {|
  SSDP.new := {| rounds := 0 |};
  SSDP.scan s := (None, {| rounds := 1 + rounds s |})
|}.

Inductive DeadSsdp : Type := Unreachable.

#[global] Instance dead_ssdp_adapter : SSDP.Adapter DeadSsdp := {|
  SSDP.new := Unreachable;
  SSDP.scan s := (Some (Foreign "socket.timeout"), s)
|}.

(** [TypeA] is discovered when the background store is not empty. *)
Definition TypeA {F : Type} : Checker.t Mdns F string string := {|
  Checker.is_discovered m _ := negb (bool_decide (store m = []));
  Checker.get_info m _ := store m;
  Checker.get_entries m _ := store m
|}.

(** [TypeB] is never discovered. *)
Definition TypeB {F : Type} : Checker.t Mdns F string string := {|
  Checker.is_discovered _ _ := false;
  Checker.get_info _ _ := [];
  Checker.get_entries _ _ := []
|}.

(** The interpreter: the packages of the distribution, of which two are
    plugins. *)
Definition env {F : Type} : PluginEnv Mdns F string string := {|
  walk_packages :=
    ["netdisco"; "netdisco.discoverables"; "netdisco.discoverables.TypeA";
     "netdisco.discoverables.TypeB"; "netdisco.mdns"; "netdisco.ssdp"];
  import_module pkg :=
    if String.eqb pkg "netdisco.discoverables.TypeA"
    then Return {| Discoverable := Return TypeA |}
    else if String.eqb pkg "netdisco.discoverables.TypeB"
    then Return {| Discoverable := Return TypeB |}
    else Raise (Foreign "ImportError")
|}.

(** A coordinator as [NetworkDiscovery()] leaves it, and one whose
    foreground scanner cannot reach the network. *)
Definition idle : NetworkDiscovery Mdns Ssdp string string := {|
  limit_discovery := None;
  mdns := MDNS.new;
  ssdp := SSDP.new;
  discoverables := [("TypeA", TypeA); ("TypeB", TypeB)];
  is_discovering := false
|}.

Definition offline : NetworkDiscovery Mdns DeadSsdp string string := {|
  limit_discovery := None;
  mdns := MDNS.new;
  ssdp := SSDP.new;
  discoverables := [("TypeA", TypeA); ("TypeB", TypeB)];
  is_discovering := false
|}.

End Stub.

(** ** Faulty collaborators

    A background scanner that cannot open its socket, an interpreter
    with a plugin that does not import, and one in which two packages
    give the same type name. *)

Module Faulty.

Inductive Mdns : Type := Jammed.

#[global] Instance mdns_adapter : MDNS.Adapter Mdns := {|
  MDNS.new := Jammed;
  MDNS.start m := (Some (Foreign "OSError"), m);
  MDNS.stop m := (Some (Foreign "OSError"), m)
|}.

Definition idle : NetworkDiscovery Mdns Stub.Ssdp string string := {|
  limit_discovery := None;
  mdns := MDNS.new;
  ssdp := SSDP.new;
  discoverables := [];
  is_discovering := false
|}.

Definition scanning : NetworkDiscovery Mdns Stub.Ssdp string string := {|
  limit_discovery := None;
  mdns := MDNS.new;
  ssdp := SSDP.new;
  discoverables := [];
  is_discovering := true
|}.

Definition broken_env : PluginEnv Stub.Mdns Stub.Ssdp string string := {|
  walk_packages :=
    ["netdisco.discoverables.TypeA"; "netdisco.discoverables.broken";
     "netdisco.discoverables.TypeB"];
  import_module pkg :=
    if String.eqb pkg "netdisco.discoverables.TypeA"
    then Return {| Discoverable := Return Stub.TypeA |}
    else if String.eqb pkg "netdisco.discoverables.TypeB"
    then Return {| Discoverable := Return Stub.TypeB |}
    else Raise (Foreign "ImportError")
|}.

Definition vendored_env : PluginEnv Stub.Mdns Stub.Ssdp string string := {|
  walk_packages :=
    ["netdisco.discoverables.TypeA"; "vendor.netdisco.discoverables.TypeA"];
  import_module pkg :=
    if String.eqb pkg "netdisco.discoverables.TypeA"
    then Return {| Discoverable := Return Stub.TypeA |}
    else if String.eqb pkg "vendor.netdisco.discoverables.TypeA"
    then Return {| Discoverable := Return Stub.TypeB |}
    else Raise (Foreign "ImportError")
|}.

End Faulty.

(** * Properties *)

Example stub_init :
  __init__ Stub.env None = Return Stub.idle.
Proof. vm_compute. reflexivity. Qed.

Example stub_scenario :
  outcome discover (after scan Stub.idle) = Return ["TypeA"]
  ∧ outcome (get_info "TypeA") (after scan Stub.idle) = Return ["printer"].
Proof. split; vm_compute; reflexivity. Qed.


(** ** Sequencing *)

Section Sequencing.
Context {St : Type}.

Lemma bind_run {A B} (m : Py St A) (k : A → Py St B) (st : St) (a : A) :
  outcome m st = Return a →
  outcome (m ≫= k) st = outcome (k a) (after m st)
  ∧ after (m ≫= k) st = after (k a) (after m st)
  ∧ trace (m ≫= k) st = trace m st ++ trace (k a) (after m st).
Proof.
  unfold outcome, after, trace, mbind, Py_bind.
  destruct (m st) as [[[a'|e] st'] tr]; cbn; [|discriminate].
  intros [= ->]. destruct (k a st') as [[r st''] tr']. done.
Qed.

Lemma bind_raised {A B} (m : Py St A) (k : A → Py St B) (st : St) (e : PyExn) :
  outcome m st = Raise e →
  outcome (m ≫= k) st = Raise e
  ∧ after (m ≫= k) st = after m st
  ∧ trace (m ≫= k) st = trace m st.
Proof.
  unfold outcome, after, trace, mbind, Py_bind.
  destruct (m st) as [[[a'|e'] st'] tr]; cbn; [discriminate|].
  intros [= ->]. done.
Qed.

Lemma bind_returned {A B} (m : Py St A) (k : A → Py St B) (st : St) (b : B) :
  outcome (m ≫= k) st = Return b →
  ∃ a, outcome m st = Return a ∧ outcome (k a) (after m st) = Return b.
Proof.
  destruct (outcome m st) as [a|e] eqn:Hm.
  - destruct (bind_run m k st a Hm) as (-> & _). eauto.
  - destruct (bind_raised m k st e Hm) as (-> & _). discriminate.
Qed.

Lemma run_eta {A} (m : Py St A) (st : St) :
  m st = (outcome m st, after m st, trace m st).
Proof. unfold outcome, after, trace. by destruct (m st) as [[??]?]. Qed.

(** A property of the object that every turn of a loop keeps holds
    after the loop, whether the loop returns or raises. *)
Lemma for_each_invariant {A} (P : St → Prop) (body : A → Py St unit)
    (xs : list A) (st : St) :
  (∀ x st', P st' → P (after (body x) st')) →
  P st → P (after (for_each xs body) st).
Proof.
  intros Hstep. revert st. induction xs as [|x xs IH]; intros st Hst; [done|].
  cbn [for_each]. destruct (outcome (body x) st) as [[]|e] eqn:Hx.
  - destruct (bind_run (body x) (λ _, for_each xs body) st () Hx) as (_ & -> & _).
    by apply IH, Hstep.
  - destruct (bind_raised (body x) (λ _, for_each xs body) st e Hx) as (_ & -> & _).
    by apply Hstep.
Qed.

(** A loop whose turns call no scanner calls no scanner. *)
Lemma for_each_silent {A} (body : A → Py St unit) (xs : list A) (st : St) :
  (∀ x st', trace (body x) st' = []) → trace (for_each xs body) st = [].
Proof.
  intros Hstep. revert st. induction xs as [|x xs IH]; intros st; [done|].
  cbn [for_each]. destruct (outcome (body x) st) as [[]|e] eqn:Hx.
  - destruct (bind_run (body x) (λ _, for_each xs body) st () Hx) as (_ & _ & ->).
    by rewrite Hstep, IH.
  - destruct (bind_raised (body x) (λ _, for_each xs body) st e Hx) as (_ & _ & ->).
    apply Hstep.
Qed.

End Sequencing.

(** Unfolds a method down to the object, the outcome and the trace. *)
Ltac py_unfold :=
  unfold after, outcome, trace, forget, scan, stop, discover, get_info,
    get_entries, subscript, _check_enabled, mdns_start, mdns_stop, ssdp_scan,
    called, set_mdns, set_ssdp, set_is_discovering, set_discoverables,
    get_self, raise, lift, index, mbind, mret, Py_bind, Py_ret in *;
  cbn in *.

(** ** The lifecycle: [scan] and [stop] *)

Section Lifecycle.
Context {Mdns Ssdp Info Entry : Type}.
Context `{!MDNS.Adapter Mdns} `{!SSDP.Adapter Ssdp}.

Abbreviation coordinator := (NetworkDiscovery Mdns Ssdp Info Entry).

(** The scanner calls of one [scan]: the background scanner is started
    when the coordinator is idle, and only then; the foreground scanner
    is triggered unless that start raised. *)
Lemma scan_trace (self : coordinator) :
  trace scan self =
    if is_discovering self then [SsdpScan]
    else match (MDNS.start (mdns self)).1 with
         | None => [MdnsStart; SsdpScan]
         | Some _ => [MdnsStart]
         end.
Proof.
  destruct self as [l m s d [|]]; py_unfold.
  - destruct (SSDP.scan s) as [[e|] s']; reflexivity.
  - destruct (MDNS.start m) as [[e|] m']; cbn; [reflexivity|].
    destruct (SSDP.scan s) as [[e|] s']; reflexivity.
Qed.

(** A [scan] returns exactly when the scanner calls it makes return. *)
Lemma scan_returns (self : coordinator) :
  outcome scan self = Return tt ↔
  (SSDP.scan (ssdp self)).1 = None
  ∧ (is_discovering self = false → (MDNS.start (mdns self)).1 = None).
Proof.
  destruct self as [l m s d [|]]; py_unfold.
  - destruct (SSDP.scan s) as [[e|] s']; cbn; intuition congruence.
  - destruct (MDNS.start m) as [[e|] m']; cbn; [intuition congruence|].
    destruct (SSDP.scan s) as [[e|] s']; cbn; intuition congruence.
Qed.

(** After a [scan] that returns the coordinator is scanning. *)
Lemma scan_scanning (self : coordinator) :
  outcome scan self = Return tt → is_discovering (after scan self) = true.
Proof.
  destruct self as [l m s d [|]]; py_unfold.
  - destruct (SSDP.scan s) as [[e|] s']; cbn; congruence.
  - destruct (MDNS.start m) as [[e|] m']; cbn; [discriminate|].
    destruct (SSDP.scan s) as [[e|] s']; cbn; congruence.
Qed.

(** The scanner calls of one [stop]. *)
Lemma stop_trace (self : coordinator) :
  trace stop self = if is_discovering self then [MdnsStop] else [].
Proof.
  destruct self as [l m s d [|]]; py_unfold; [|reflexivity].
  destruct (MDNS.stop m) as [[e|] m']; reflexivity.
Qed.

(** [stop] on an idle coordinator does nothing. *)
Lemma stop_idle (self : coordinator) :
  is_discovering self = false → stop self = (Return tt, self, []).
Proof.
  destruct self as [l m s d [|]]; py_unfold; [discriminate|reflexivity].
Qed.

(** A [stop] returns exactly when the call it makes returns. *)
Lemma stop_returns (self : coordinator) :
  outcome stop self = Return tt ↔
  (is_discovering self = true → (MDNS.stop (mdns self)).1 = None).
Proof.
  destruct self as [l m s d [|]]; py_unfold; [|intuition congruence].
  destruct (MDNS.stop m) as [[e|] m']; cbn; intuition congruence.
Qed.

(** After a [stop] that returns the coordinator is idle. *)
Lemma stop_idles (self : coordinator) :
  outcome stop self = Return tt → is_discovering (after stop self) = false.
Proof.
  destruct self as [l m s d [|]]; py_unfold; [|reflexivity].
  destruct (MDNS.stop m) as [[e|] m']; cbn; congruence.
Qed.

(** Counting the calls in a run of foreground scans. *)
Lemma calls_repeat (c c' : Call) (n : nat) :
  calls c (repeat c' n) = if decide (c' = c) then n else 0.
Proof.
  unfold calls. induction n as [|n IH].
  - by destruct (decide (c' = c)).
  - change (repeat c' (S n)) with (c' :: repeat c' n).
    rewrite filter_cons. destruct (decide (c' = c)); cbn; by rewrite IH.
Qed.

(** Once scanning, further calls of [scan] only trigger the foreground
    scanner, and the coordinator stays scanning. *)
Lemma scan_times_scanning (n : nat) (self : coordinator) :
  is_discovering self = true →
  outcome (scan_times n) self = Return tt →
  trace (scan_times n) self = repeat SsdpScan n
  ∧ is_discovering (after (scan_times n) self) = true.
Proof.
  revert self. induction n as [|n IH]; intros self Hon Hret.
  - done.
  - cbn [scan_times] in *.
    destruct (bind_returned _ _ _ _ Hret) as ([] & Hscan & Hrest).
    destruct (bind_run scan (λ _, scan_times n) self () Hscan) as (_ & -> & ->).
    destruct (IH (after scan self) (scan_scanning self Hscan) Hrest) as [-> ->].
    by rewrite scan_trace, Hon.
Qed.

(** The calls before the last one of a run that returns have returned. *)
Lemma scan_times_prefix (n : nat) (self : coordinator) (k : nat) :
  outcome (scan_times n) self = Return tt → k ≤ n →
  outcome (scan_times k) self = Return tt.
Proof.
  revert self k. induction n as [|n IH]; intros self k Hret Hk.
  - by replace k with 0 by lia.
  - destruct k as [|k]; [done|]. cbn [scan_times] in *.
    destruct (bind_returned _ _ _ _ Hret) as ([] & Hscan & Hrest).
    destruct (bind_run scan (λ _, scan_times k) self () Hscan) as (-> & _).
    apply IH; [done|lia].
Qed.

(** C3: [n] consecutive calls of [scan] on an idle coordinator, each of
    which returns, start the background scanner exactly once, in the
    first call, and trigger the foreground scanner once per call; after
    each of the calls the coordinator is scanning. *)
Theorem scan_times_calls (self : coordinator) (n : nat) :
  is_discovering self = false → 0 < n →
  outcome (scan_times n) self = Return tt →
  trace (scan_times n) self = MdnsStart :: repeat SsdpScan n
  ∧ calls MdnsStart (trace (scan_times n) self) = 1
  ∧ calls SsdpScan (trace (scan_times n) self) = n
  ∧ ∀ k, 0 < k ≤ n →
      outcome (scan_times k) self = Return tt
      ∧ is_discovering (after (scan_times k) self) = true.
Proof.
  intros Hidle Hn Hret.
  assert (Hfirst : ∀ k, 0 < k → outcome (scan_times k) self = Return tt →
            trace (scan_times k) self = MdnsStart :: repeat SsdpScan k
            ∧ is_discovering (after (scan_times k) self) = true).
  { intros [|k] Hk Hretk; [lia|]. cbn [scan_times] in *.
    destruct (bind_returned _ _ _ _ Hretk) as ([] & Hscan & Hrest).
    destruct (bind_run scan (λ _, scan_times k) self () Hscan) as (_ & -> & ->).
    destruct (scan_times_scanning k (after scan self)
                (scan_scanning self Hscan) Hrest) as [-> ->].
    rewrite scan_trace, Hidle.
    apply scan_returns in Hscan as [_ Hstart]. by rewrite (Hstart Hidle). }
  destruct (Hfirst n Hn Hret) as [Htr _]. rewrite Htr.
  split; [done|]. split; [|split].
  - unfold calls. rewrite filter_cons_True by done. cbn.
    fold (calls MdnsStart (repeat SsdpScan n)). by rewrite calls_repeat.
  - unfold calls. rewrite filter_cons_False by done.
    fold (calls SsdpScan (repeat SsdpScan n)). by rewrite calls_repeat.
  - intros k [Hk Hkn].
    pose proof (scan_times_prefix n self k Hret Hkn) as Hretk.
    split; [done|]. by apply Hfirst.
Qed.

(** C4: [stop] on an idle coordinator returns at once, changes nothing
    and calls no scanner; [stop] on a scanning coordinator stops the
    background scanner exactly once and, when that call returns, leaves
    the coordinator idle, so that a second [stop] does nothing. *)
Theorem stop_once (self : coordinator) :
  (is_discovering self = false → stop self = (Return tt, self, []))
  ∧ (is_discovering self = true →
       trace stop self = [MdnsStop]
       ∧ calls MdnsStop (trace stop self) = 1
       ∧ (outcome stop self = Return tt →
            is_discovering (after stop self) = false
            ∧ stop (after stop self) = (Return tt, after stop self, []))).
Proof.
  split; [apply stop_idle|]. intros Hon.
  rewrite stop_trace, Hon. split; [done|]. split; [done|].
  intros Hret. split; [by apply stop_idles|].
  by apply stop_idle, stop_idles.
Qed.

(** One [scan] starts the background scanner once when the coordinator
    is idle and not at all when it is scanning. *)
Lemma scan_starts (self : coordinator) :
  calls MdnsStart (trace scan self) = if is_discovering self then 0 else 1.
Proof.
  rewrite scan_trace. destruct (is_discovering self); [done|].
  by destruct (MDNS.start (mdns self)).1.
Qed.

(** C10: in [scan(); stop(); scan()], each call returning, the [stop]
    leaves the coordinator idle, the second [scan] starts the
    background scanner again, exactly once, and leaves the coordinator
    scanning. *)
Theorem scan_stop_scan (self : coordinator) :
  outcome (scan ;; stop ;; scan) self = Return tt →
  is_discovering (after (scan ;; stop) self) = false
  ∧ trace scan (after (scan ;; stop) self) = [MdnsStart; SsdpScan]
  ∧ calls MdnsStart (trace scan (after (scan ;; stop) self)) = 1
  ∧ is_discovering (after (scan ;; stop ;; scan) self) = true
  ∧ (is_discovering self = false →
       trace (scan ;; stop ;; scan) self =
         [MdnsStart; SsdpScan; MdnsStop; MdnsStart; SsdpScan]).
Proof.
  intros Hret.
  destruct (bind_returned _ _ _ _ Hret) as ([] & Hscan1 & Hret').
  destruct (bind_returned _ _ _ _ Hret') as ([] & Hstop & Hscan2).
  destruct (bind_run scan (λ _, stop ;; scan) self () Hscan1) as (_ & -> & ->).
  destruct (bind_run scan (λ _, stop) self () Hscan1) as (_ & -> & _).
  destruct (bind_run stop (λ _, scan) (after scan self) () Hstop) as (_ & -> & ->).
  pose proof (stop_idles _ Hstop) as Hidle.
  assert (Htr2 : trace scan (after stop (after scan self)) = [MdnsStart; SsdpScan]).
  { rewrite scan_trace, Hidle.
    apply scan_returns in Hscan2 as [_ Hstart]. by rewrite (Hstart Hidle). }
  split; [done|]. split; [done|]. split; [by rewrite Htr2|].
  split; [by apply scan_scanning|].
  intros Hidle0. rewrite Htr2, stop_trace, (scan_scanning self Hscan1).
  rewrite scan_trace, Hidle0.
  apply scan_returns in Hscan1 as [_ Hstart]. by rewrite (Hstart Hidle0).
Qed.

End Lifecycle.

(** ** A failing foreground scan *)

Section ForegroundFailure.
Context {Mdns Ssdp Info Entry : Type}.
Context `{!MDNS.Adapter Mdns} `{!SSDP.Adapter Ssdp}.

(** C6, amended: when the foreground scanner is reached and raises, the
    exception reaches the caller of [scan] and the coordinator is
    scanning afterwards.  A scanning coordinator keeps its state and its
    background scanner; an idle one has started the background scanner
    and has become scanning before the foreground scanner ran.  The
    registry is the same in both cases. *)
Theorem scan_foreground_failure
    (self : NetworkDiscovery Mdns Ssdp Info Entry) (e : PyExn) :
  (SSDP.scan (ssdp self)).1 = Some e →
  (is_discovering self = false → (MDNS.start (mdns self)).1 = None) →
  outcome scan self = Raise e
  ∧ is_discovering (after scan self) = true
  ∧ discoverables (after scan self) = discoverables self
  ∧ (is_discovering self = true →
       is_discovering (after scan self) = is_discovering self
       ∧ mdns (after scan self) = mdns self
       ∧ trace scan self = [SsdpScan])
  ∧ (is_discovering self = false →
       mdns (after scan self) = (MDNS.start (mdns self)).2
       ∧ trace scan self = [MdnsStart; SsdpScan]).
Proof.
  destruct self as [l m s d [|]]; py_unfold; intros Hscan Hstart.
  - destruct (SSDP.scan s) as [r s']; cbn in *; subst r. by repeat split.
  - specialize (Hstart eq_refl).
    destruct (MDNS.start m) as [r m']; cbn in *; subst r; cbn.
    destruct (SSDP.scan s) as [r s']; cbn in *; subst r. by repeat split.
Qed.

End ForegroundFailure.

(** ** The queries *)

Section Queries.
Context {Mdns Ssdp Info Entry : Type}.
Context `{!MDNS.Adapter Mdns} `{!SSDP.Adapter Ssdp}.

Lemma getitem_None {V} (d : list (string * V)) (k : string) :
  PyDict.getitem d k = None ↔ k ∉ PyDict.keys d.
Proof.
  unfold PyDict.keys. induction d as [|[k' v] d IH]; cbn.
  - split; [intros _; apply not_elem_of_nil|done].
  - rewrite not_elem_of_cons. destruct (String.eqb_spec k' k) as [->|Hne].
    + split; [discriminate|]. by intros [[] _].
    + rewrite IH. split; [done|tauto].
Qed.

Lemma getitem_Some {V} (d : list (string * V)) (k : string) (v : V) :
  PyDict.getitem d k = Some v → (k, v) ∈ PyDict.items d.
Proof.
  unfold PyDict.items. induction d as [|[k' v'] d IH]; cbn; [done|].
  destruct (String.eqb_spec k' k) as [->|Hne].
  - intros [= ->]. apply list_elem_of_here.
  - intros Hd. by apply list_elem_of_further, IH.
Qed.

Lemma discovered_filter (m : Mdns) (s : Ssdp)
    (items : list (string * Checker.t Mdns Ssdp Info Entry)) :
  discovered m s items =
    (filter (λ it, Checker.is_discovered it.2 m s = true) items).*1.
Proof.
  induction items as [|[dis checker] items IH]; [done|].
  cbn [discovered]. rewrite filter_cons. cbn [snd].
  destruct (Checker.is_discovered checker m s) eqn:Hc.
  - rewrite decide_True by done. rewrite fmap_cons. by rewrite IH.
  - by rewrite decide_False by done.
Qed.

Lemma discovered_sublist (m : Mdns) (s : Ssdp)
    (items : list (string * Checker.t Mdns Ssdp Info Entry)) :
  discovered m s items `sublist_of` PyDict.keys items.
Proof.
  unfold PyDict.keys.
  induction items as [|[dis checker] items IH]; cbn; [constructor|].
  destruct (Checker.is_discovered checker m s); by constructor.
Qed.

Lemma discovered_elem (m : Mdns) (s : Ssdp)
    (items : list (string * Checker.t Mdns Ssdp Info Entry)) (name : string) :
  name ∈ discovered m s items ↔
  ∃ checker, (name, checker) ∈ items ∧ Checker.is_discovered checker m s = true.
Proof.
  induction items as [|[dis checker] items IH]; cbn.
  - split; [by intros ?%elem_of_nil|]. by intros (? & ?%elem_of_nil & _).
  - destruct (Checker.is_discovered checker m s) eqn:Hc.
    + rewrite elem_of_cons, IH. split.
      * intros [->|(c & Hin & Hd)].
        -- exists checker. split; [apply list_elem_of_here|done].
        -- exists c. split; [by apply list_elem_of_further|done].
      * intros (c & Hin & Hd). apply elem_of_cons in Hin as [[= -> ->]|Hin].
        -- by left.
        -- right. by exists c.
    + rewrite IH. split.
      * intros (c & Hin & Hd). exists c. split; [by apply list_elem_of_further|done].
      * intros (c & Hin & Hd). apply elem_of_cons in Hin as [[= -> ->]|Hin].
        -- congruence.
        -- by exists c.
Qed.

(** C7: on a scanning coordinator [discover] returns, without touching
    the coordinator or the scanners, the names of the registry whose
    checker is discovered: those and no others, in the order in which
    the registry holds them. *)
Theorem discover_scanning (self : NetworkDiscovery Mdns Ssdp Info Entry) :
  is_discovering self = true →
  ∃ names,
    discover self = (Return names, self, [])
    ∧ names =
        (filter (λ it, Checker.is_discovered it.2 (mdns self) (ssdp self) = true)
                (PyDict.items (discoverables self))).*1
    ∧ names `sublist_of` PyDict.keys (discoverables self)
    ∧ ∀ name, name ∈ names ↔
        ∃ checker, (name, checker) ∈ PyDict.items (discoverables self)
                   ∧ Checker.is_discovered checker (mdns self) (ssdp self) = true.
Proof.
  intros Hon.
  exists (discovered (mdns self) (ssdp self) (PyDict.items (discoverables self))).
  split; [|split; [|split]].
  - destruct self as [l m s d on]; py_unfold. by subst on.
  - apply discovered_filter.
  - apply discovered_sublist.
  - apply discovered_elem.
Qed.

(** C8: in either state, [get_info] and [get_entries] raise [KeyError]
    for a name the registry does not hold and return what the checker
    of a registered name answers; neither changes the coordinator nor
    calls a scanner. *)
Theorem query_lookup (self : NetworkDiscovery Mdns Ssdp Info Entry) (name : string) :
  (name ∉ PyDict.keys (discoverables self) →
     get_info name self = (Raise (KeyError name), self, [])
     ∧ get_entries name self = (Raise (KeyError name), self, []))
  ∧ (name ∈ PyDict.keys (discoverables self) →
     ∃ checker,
       PyDict.getitem (discoverables self) name = Some checker
       ∧ (name, checker) ∈ PyDict.items (discoverables self)
       ∧ get_info name self =
           (Return (Checker.get_info checker (mdns self) (ssdp self)), self, [])
       ∧ get_entries name self =
           (Return (Checker.get_entries checker (mdns self) (ssdp self)), self, [])).
Proof.
  split.
  - intros Habs%getitem_None. py_unfold. by rewrite Habs.
  - intros Hin.
    destruct (PyDict.getitem (discoverables self) name) as [checker|] eqn:Hget.
    + exists checker. split; [done|]. split; [by apply getitem_Some|].
      py_unfold. by rewrite Hget.
    + by apply getitem_None in Hget.
Qed.

(** C2, amended: [get_info] and [get_entries] do not look at the state.
    On an idle coordinator they never raise [RuntimeError] and their
    outcome is the one they have on the same coordinator when it is
    scanning; of the three queries only [discover] raises
    [RuntimeError] on an idle coordinator. *)
Theorem query_ignores_state (self : NetworkDiscovery Mdns Ssdp Info Entry) (name : string) :
  is_discovering self = false →
  (∀ msg, outcome (get_info name) self ≠ Raise (RuntimeError msg))
  ∧ (∀ msg, outcome (get_entries name) self ≠ Raise (RuntimeError msg))
  ∧ outcome (get_info name) self =
      outcome (get_info name) (after (set_is_discovering true) self)
  ∧ outcome (get_entries name) self =
      outcome (get_entries name) (after (set_is_discovering true) self)
  ∧ outcome discover self = Raise (RuntimeError "NetworkDiscovery is disabled").
Proof.
  intros Hidle. destruct self as [l m s d on]; py_unfold. subst on.
  destruct (PyDict.getitem d name) as [checker|]; by repeat split.
Qed.

End Queries.

(** ** The registry *)

Section Registry.
Context {Mdns Ssdp Info Entry : Type}.
Context `{!MDNS.Adapter Mdns} `{!SSDP.Adapter Ssdp}.

Lemma rsplit_last_None (c : ascii) (s : string) :
  PyStr.rsplit_last c s = None → PyStr.contains c s = false.
Proof.
  induction s as [|a s IH]; cbn; [done|].
  destruct (PyStr.rsplit_last c s) as [[p0 p1]|]; [done|].
  destruct (Ascii.eqb a c); [done|]. intros _. by apply IH.
Qed.

Lemma endswith_contains (c : ascii) (s suffix : string) :
  PyStr.endswith s suffix = true → PyStr.contains c suffix = true →
  PyStr.contains c s = true.
Proof.
  intros Hend Hc. induction s as [|a s IH].
  - destruct suffix; [done|discriminate].
  - change (PyStr.endswith (String a s) suffix)
      with (if String.eqb (String a s) suffix then true
            else PyStr.endswith s suffix) in Hend.
    destruct (String.eqb_spec (String a s) suffix) as [->|_]; [done|].
    cbn. rewrite (IH Hend). apply orb_true_r.
Qed.

(** A name without a dot does not end with the namespace: the loop
    never reads [parts[1]] out of range. *)
Lemma undotted_outside (s : string) :
  PyStr.rsplit_last "." s = None → PyStr.endswith s namespace = false.
Proof.
  intros Hs%rsplit_last_None.
  destruct (PyStr.endswith s namespace) eqn:Hend; [|done].
  by rewrite (endswith_contains "." s namespace Hend) in Hs.
Qed.

Lemma plugin_name_limit (allowed : gset string) (pkg name : string) :
  plugin_name (Some allowed) pkg = Some name ↔
  pkg ∈ allowed ∧ plugin_name None pkg = Some name.
Proof.
  unfold plugin_name, limited_out.
  destruct (PyStr.rsplit pkg "." !! 0) as [p0|]; cbn; [|intuition congruence].
  destruct (PyStr.endswith p0 namespace); cbn; [|intuition congruence].
  case_bool_decide; cbn; intuition congruence.
Qed.

(** One turn of the loop: a package that is skipped changes nothing; a
    package that is kept is imported, and its checker is stored under
    its name unless the import or the constructor raises. *)
Lemma load_package_run (env : PluginEnv Mdns Ssdp Info Entry) (pkg : string)
    (self : NetworkDiscovery Mdns Ssdp Info Entry) :
  load_package env pkg self =
    match plugin_name (limit_discovery self) pkg with
    | None => (Return tt, self, [])
    | Some name =>
        match import_module env pkg with
        | Raise e => (Raise e, self, [])
        | Return module =>
            match Discoverable module with
            | Raise e => (Raise e, self, [])
            | Return checker =>
                (Return tt,
                 after (set_discoverables
                          (PyDict.setitem (discoverables self) name checker)) self,
                 [])
            end
        end
    end.
Proof.
  unfold load_package, plugin_name, PyStr.rsplit.
  destruct (PyStr.rsplit_last "." pkg) as [[p0 p1]|] eqn:Hsplit; py_unfold.
  - destruct (PyStr.endswith p0 namespace); cbn; [|done].
    destruct (limited_out (limit_discovery self) pkg); cbn; [done|].
    destruct (import_module env pkg) as [module|e]; [|done].
    by destruct (Discoverable module) as [checker|e].
  - by rewrite (undotted_outside pkg Hsplit).
Qed.

Lemma keys_setitem {V} (d : list (string * V)) (k : string) (v : V) :
  PyDict.keys (PyDict.setitem d k v) =
    if decide (k ∈ PyDict.keys d) then PyDict.keys d else PyDict.keys d ++ [k].
Proof.
  unfold PyDict.keys. induction d as [|[k' v'] d IH]; cbn.
  - by rewrite decide_False by apply not_elem_of_nil.
  - destruct (String.eqb_spec k' k) as [->|Hne]; cbn.
    + by rewrite decide_True by apply list_elem_of_here.
    + rewrite IH. destruct (decide (k ∈ map fst d)) as [Hin|Hout].
      * by rewrite decide_True by by apply list_elem_of_further.
      * rewrite decide_False; [done|].
        rewrite not_elem_of_cons. split; [congruence|done].
Qed.

Lemma elem_of_keys_setitem {V} (d : list (string * V)) (k : string) (v : V)
    (name : string) :
  name ∈ PyDict.keys (PyDict.setitem d k v) ↔ name ∈ PyDict.keys d ∨ name = k.
Proof.
  rewrite keys_setitem. destruct (decide (k ∈ PyDict.keys d)) as [Hin|Hout].
  - split; [by left|]. by intros [?| ->].
  - by rewrite elem_of_app, list_elem_of_singleton.
Qed.

Lemma NoDup_keys_setitem {V} (d : list (string * V)) (k : string) (v : V) :
  NoDup (PyDict.keys d) → NoDup (PyDict.keys (PyDict.setitem d k v)).
Proof.
  intros Hd. rewrite keys_setitem.
  destruct (decide (k ∈ PyDict.keys d)) as [Hin|Hout]; [done|].
  apply NoDup_app. split; [done|]. split; [|apply NoDup_singleton].
  by intros x Hx ->%list_elem_of_singleton.
Qed.

Lemma load_package_framed (env : PluginEnv Mdns Ssdp Info Entry) (pkg : string)
    (self : NetworkDiscovery Mdns Ssdp Info Entry) :
  framed self (after (load_package env pkg) self)
  ∧ trace (load_package env pkg) self = [].
Proof.
  unfold after, trace. rewrite load_package_run.
  destruct (plugin_name (limit_discovery self) pkg) as [name|]; [|done].
  destruct (import_module env pkg) as [module|e]; [|done].
  by destruct (Discoverable module) as [checker|e].
Qed.

Lemma load_package_NoDup (env : PluginEnv Mdns Ssdp Info Entry) (pkg : string)
    (self : NetworkDiscovery Mdns Ssdp Info Entry) :
  NoDup (PyDict.keys (discoverables self)) →
  NoDup (PyDict.keys (discoverables (after (load_package env pkg) self))).
Proof.
  intros Hd. unfold after. rewrite load_package_run.
  destruct (plugin_name (limit_discovery self) pkg) as [name|]; [|done].
  destruct (import_module env pkg) as [module|e]; [|done].
  destruct (Discoverable module) as [checker|e]; [|done].
  by apply NoDup_keys_setitem.
Qed.

Lemma load_package_keys (env : PluginEnv Mdns Ssdp Info Entry) (pkg : string)
    (self : NetworkDiscovery Mdns Ssdp Info Entry) (name : string) :
  outcome (load_package env pkg) self = Return tt →
  name ∈ PyDict.keys (discoverables (after (load_package env pkg) self)) ↔
  name ∈ PyDict.keys (discoverables self)
  ∨ plugin_name (limit_discovery self) pkg = Some name.
Proof.
  unfold after, outcome. rewrite load_package_run.
  destruct (plugin_name (limit_discovery self) pkg) as [name'|]; cbn.
  - destruct (import_module env pkg) as [module|e]; [|done].
    destruct (Discoverable module) as [checker|e]; [|done]. intros _.
    unfold set_discoverables. cbn [fst snd discoverables].
    rewrite elem_of_keys_setitem. intuition congruence.
  - intuition congruence.
Qed.

Lemma load_package_returns (env : PluginEnv Mdns Ssdp Info Entry) (pkg : string)
    (self : NetworkDiscovery Mdns Ssdp Info Entry) :
  (is_Some (plugin_name (limit_discovery self) pkg) → loadable env pkg) →
  outcome (load_package env pkg) self = Return tt.
Proof.
  intros Hload. unfold outcome. rewrite load_package_run.
  destruct (plugin_name (limit_discovery self) pkg) as [name|]; [|done].
  destruct Hload as (module & checker & -> & ->); [by eexists|done].
Qed.

Lemma load_loop_framed (env : PluginEnv Mdns Ssdp Info Entry) (pkgs : list string)
    (self : NetworkDiscovery Mdns Ssdp Info Entry) :
  framed self (after (for_each pkgs (load_package env)) self)
  ∧ trace (for_each pkgs (load_package env)) self = [].
Proof.
  split.
  - apply (for_each_invariant (framed self)); [|done].
    intros pkg st Hst. destruct (load_package_framed env pkg st) as [Hpkg _].
    unfold framed in *. intuition congruence.
  - apply for_each_silent. intros pkg st. apply load_package_framed.
Qed.

Lemma load_loop_NoDup (env : PluginEnv Mdns Ssdp Info Entry) (pkgs : list string)
    (self : NetworkDiscovery Mdns Ssdp Info Entry) :
  NoDup (PyDict.keys (discoverables self)) →
  NoDup (PyDict.keys (discoverables (after (for_each pkgs (load_package env)) self))).
Proof.
  apply (for_each_invariant (λ st, NoDup (PyDict.keys (discoverables st)))).
  intros pkg st. apply load_package_NoDup.
Qed.

Lemma load_loop_keys (env : PluginEnv Mdns Ssdp Info Entry) (pkgs : list string)
    (self : NetworkDiscovery Mdns Ssdp Info Entry) (name : string) :
  outcome (for_each pkgs (load_package env)) self = Return tt →
  name ∈ PyDict.keys (discoverables (after (for_each pkgs (load_package env)) self)) ↔
  name ∈ PyDict.keys (discoverables self)
  ∨ ∃ pkg, pkg ∈ pkgs ∧ plugin_name (limit_discovery self) pkg = Some name.
Proof.
  revert self. induction pkgs as [|pkg pkgs IH]; intros self Hret.
  - cbn. split; [by left|]. intros [?|(? & ?%elem_of_nil & _)]; done.
  - cbn [for_each] in *.
    destruct (bind_returned _ _ _ _ Hret) as ([] & Hpkg & Hrest).
    destruct (bind_run (load_package env pkg)
                (λ _, for_each pkgs (load_package env)) self () Hpkg) as (_ & -> & _).
    rewrite (IH _ Hrest), (load_package_keys env pkg self name Hpkg).
    destruct (load_package_framed env pkg self) as [(-> & _) _].
    split.
    + intros [[?|?]|(p & ? & ?)]; [by left| |].
      * right. exists pkg. split; [apply list_elem_of_here|done].
      * right. exists p. split; [by apply list_elem_of_further|done].
    + intros [?|(p & [->|?]%elem_of_cons & ?)]; [by left; left|by left; right|].
      right. by exists p.
Qed.

Lemma load_loop_returns (env : PluginEnv Mdns Ssdp Info Entry) (pkgs : list string)
    (self : NetworkDiscovery Mdns Ssdp Info Entry) :
  (∀ pkg, pkg ∈ pkgs → is_Some (plugin_name (limit_discovery self) pkg) →
          loadable env pkg) →
  outcome (for_each pkgs (load_package env)) self = Return tt.
Proof.
  revert self. induction pkgs as [|pkg pkgs IH]; intros self Hload; [done|].
  cbn [for_each].
  assert (Hpkg : outcome (load_package env pkg) self = Return tt).
  { apply load_package_returns. apply Hload, list_elem_of_here. }
  destruct (bind_run (load_package env pkg)
              (λ _, for_each pkgs (load_package env)) self () Hpkg) as (-> & _).
  apply IH. intros p Hp.
  destruct (load_package_framed env pkg self) as [(-> & _) _].
  by apply Hload, list_elem_of_further.
Qed.

(** The constructor returns the object the loop leaves, when the loop
    returns, and raises what the loop raises. *)
Lemma init_run (env : PluginEnv Mdns Ssdp Info Entry) (limit : option (gset string)) :
  __init__ env limit =
    match outcome (for_each (walk_packages env) (load_package env))
            {| limit_discovery := limit; mdns := MDNS.new; ssdp := SSDP.new;
               discoverables := []; is_discovering := false |} with
    | Return _ =>
        Return (after (for_each (walk_packages env) (load_package env))
                  {| limit_discovery := limit; mdns := MDNS.new; ssdp := SSDP.new;
                     discoverables := []; is_discovering := false |})
    | Raise e => Raise e
    end.
Proof.
  set (self0 := {| limit_discovery := limit; mdns := MDNS.new; ssdp := SSDP.new;
                   discoverables := []; is_discovering := false |}).
  destruct (load_loop_framed env (walk_packages env) self0) as [(_ & _ & _ & Hoff) _].
  unfold __init__, _load_device_support. fold self0.
  unfold after, outcome in *. unfold mbind, Py_bind, set_discoverables,
    set_is_discovering. cbn [limit_discovery mdns ssdp discoverables is_discovering].
  change {| limit_discovery := limit_discovery self0; mdns := mdns self0;
            ssdp := ssdp self0; discoverables := [];
            is_discovering := is_discovering self0 |} with self0.
  destruct (for_each (walk_packages env) (load_package env) self0)
    as [[[[]|e] [l m s d on]] tr]; cbn in *; [|done].
  by subst on.
Qed.

(** The constructor returns when every package the loop keeps can be
    loaded. *)
Lemma init_returns (env : PluginEnv Mdns Ssdp Info Entry) (limit : option (gset string)) :
  (∀ pkg, pkg ∈ walk_packages env → is_Some (plugin_name limit pkg) →
          loadable env pkg) →
  ∃ self, __init__ env limit = Return self.
Proof.
  intros Hload. rewrite init_run. rewrite load_loop_returns by done. eauto.
Qed.

(** What the constructor leaves: an idle coordinator with fresh
    scanners, whose registry has one key for each name of a kept
    package. *)
Lemma init_fresh (env : PluginEnv Mdns Ssdp Info Entry) (limit : option (gset string))
    (self : NetworkDiscovery Mdns Ssdp Info Entry) :
  __init__ env limit = Return self →
  is_discovering self = false
  ∧ limit_discovery self = limit
  ∧ NoDup (PyDict.keys (discoverables self))
  ∧ ∀ name, name ∈ PyDict.keys (discoverables self) ↔
      ∃ pkg, pkg ∈ walk_packages env ∧ plugin_name limit pkg = Some name.
Proof.
  rewrite init_run.
  set (self0 := {| limit_discovery := limit; mdns := MDNS.new; ssdp := SSDP.new;
                   discoverables := []; is_discovering := false |}).
  destruct (outcome _ self0) as [[]|e] eqn:Hret; [|discriminate].
  intros [= <-].
  destruct (load_loop_framed env (walk_packages env) self0) as [(Hl & _ & _ & Hoff) _].
  split; [done|]. split; [done|]. split.
  - apply load_loop_NoDup. cbn. constructor.
  - intros name. rewrite (load_loop_keys env _ self0 name Hret). cbn.
    split; [|by right]. by intros [?%elem_of_nil|?].
Qed.

Lemma NoDup_singleton_keys (l : list string) (a : string) :
  NoDup l → (∀ x, x ∈ l ↔ x = a) → l = [a].
Proof.
  intros Hl Ha. destruct l as [|x l].
  - pose proof (proj2 (Ha a) eq_refl) as Hin. by apply elem_of_nil in Hin.
  - pose proof (proj1 (Ha x) (list_elem_of_here _ _)) as ->.
    destruct l as [|y l]; [done|].
    pose proof (proj1 (Ha y) (list_elem_of_further _ _ _ (list_elem_of_here _ _))) as ->.
    apply NoDup_cons in Hl as [Hl _]. destruct Hl. apply list_elem_of_here.
Qed.

(** The loader with a limit: line 92 looks the full package name up in
    the limit, and line 97 stores the checker under the part after the
    last dot.  The keys of the registry are then the names of the
    packages of the namespace whose full name the limit holds, each
    once. *)
Theorem limit_keeps_listed_packages (env : PluginEnv Mdns Ssdp Info Entry)
    (allowed : gset string) (self : NetworkDiscovery Mdns Ssdp Info Entry) :
  __init__ env (Some allowed) = Return self →
  NoDup (PyDict.keys (discoverables self))
  ∧ (∀ name, name ∈ PyDict.keys (discoverables self) ↔
       ∃ pkg, pkg ∈ walk_packages env ∧ pkg ∈ allowed
              ∧ plugin_name None pkg = Some name)
  ∧ (∀ pkgA pkgB A,
       walk_packages env = [pkgA; pkgB] → pkgA ≠ pkgB → allowed = {[pkgA]} →
       plugin_name None pkgA = Some A →
       PyDict.keys (discoverables self) = [A]).
Proof.
  intros (_ & _ & Hnd & Hkeys)%init_fresh.
  assert (Hkeys' : ∀ name, name ∈ PyDict.keys (discoverables self) ↔
            ∃ pkg, pkg ∈ walk_packages env ∧ pkg ∈ allowed
                   ∧ plugin_name None pkg = Some name).
  { intros name. rewrite Hkeys. split.
    - intros (pkg & Hpkg & (? & ?)%plugin_name_limit). by exists pkg.
    - intros (pkg & Hpkg & Hin & Hname). exists pkg.
      split; [done|]. by apply plugin_name_limit. }
  split; [done|]. split; [done|].
  intros pkgA pkgB A Hwalk Hne -> HA.
  apply NoDup_singleton_keys; [done|]. intros name. rewrite Hkeys', Hwalk. split.
  - intros (pkg & _ & ->%elem_of_singleton & Hname). congruence.
  - intros ->. exists pkgA.
    split; [apply list_elem_of_here|]. split; [by apply elem_of_singleton|done].
Qed.

(** No public operation assigns to the registry. *)
Lemma run_op_registry (o : Op) (self : NetworkDiscovery Mdns Ssdp Info Entry) :
  discoverables (after (run_op o) self) = discoverables self.
Proof.
  destruct o, self as [l m s d [|]]; unfold run_op; py_unfold;
    repeat match goal with
           | |- context [MDNS.start ?m] => destruct (MDNS.start m) as [[?|] ?]; cbn
           | |- context [MDNS.stop ?m] => destruct (MDNS.stop m) as [[?|] ?]; cbn
           | |- context [SSDP.scan ?s] => destruct (SSDP.scan s) as [[?|] ?]; cbn
           | |- context [PyDict.getitem ?d ?k] => destruct (PyDict.getitem d k); cbn
           end; reflexivity.
Qed.

(** C9: the constructor returns an idle coordinator whose registry
    already holds every package the loader keeps, and no sequence of
    [scan], [stop], [discover], [get_info] and [get_entries], whatever
    their outcomes, changes the registry. *)
Theorem registry_fixed (env : PluginEnv Mdns Ssdp Info Entry)
    (limit : option (gset string)) (self : NetworkDiscovery Mdns Ssdp Info Entry) :
  __init__ env limit = Return self →
  is_discovering self = false
  ∧ (∀ name, name ∈ PyDict.keys (discoverables self) ↔
       ∃ pkg, pkg ∈ walk_packages env ∧ plugin_name limit pkg = Some name)
  ∧ ∀ ops, discoverables (after (run_ops ops) self) = discoverables self.
Proof.
  intros (Hoff & _ & _ & Hkeys)%init_fresh.
  split; [done|]. split; [done|]. intros ops. unfold run_ops.
  apply (for_each_invariant (λ st, discoverables st = discoverables self)); [|done].
  intros o st <-. apply run_op_registry.
Qed.

(** C1: [discover] on an idle coordinator raises [RuntimeError] and
    does nothing else; a coordinator is idle when the constructor
    returns it and after a [stop] that returns, also one that follows a
    [scan]; [discover] returns only on a scanning coordinator, and on
    every scanning coordinator it returns. *)
Theorem discover_requires_scanning :
  (∀ self : NetworkDiscovery Mdns Ssdp Info Entry,
     is_discovering self = false →
     discover self = (Raise (RuntimeError "NetworkDiscovery is disabled"), self, []))
  ∧ (∀ (env : PluginEnv Mdns Ssdp Info Entry) limit self,
       __init__ env limit = Return self →
       outcome discover self = Raise (RuntimeError "NetworkDiscovery is disabled"))
  ∧ (∀ self : NetworkDiscovery Mdns Ssdp Info Entry,
       outcome stop (after scan self) = Return tt →
       outcome discover (after stop (after scan self)) =
         Raise (RuntimeError "NetworkDiscovery is disabled"))
  ∧ (∀ (self : NetworkDiscovery Mdns Ssdp Info Entry) names,
       outcome discover self = Return names → is_discovering self = true)
  ∧ (∀ self : NetworkDiscovery Mdns Ssdp Info Entry,
       is_discovering self = true → ∃ names, outcome discover self = Return names).
Proof.
  assert (Hidle : ∀ self : NetworkDiscovery Mdns Ssdp Info Entry,
            is_discovering self = false →
            discover self =
              (Raise (RuntimeError "NetworkDiscovery is disabled"), self, [])).
  { intros [l m s d on] Hoff. py_unfold. by subst on. }
  split; [done|]. split; [|split; [|split]].
  - intros env limit self (Hoff & _)%init_fresh. unfold outcome. by rewrite Hidle.
  - intros self Hoff%stop_idles. unfold outcome. by rewrite Hidle.
  - intros [l m s d [|]] names; [done|]. by py_unfold.
  - intros [l m s d on] Hon. py_unfold. subst on. eauto.
Qed.

End Registry.

(** ** The properties on the stub collaborators *)

Lemma discover_requires_scanning_witness :
  (is_discovering Stub.idle = false
   ∧ discover Stub.idle =
       (Raise (RuntimeError "NetworkDiscovery is disabled"), Stub.idle, []))
  ∧ (__init__ Stub.env None = Return Stub.idle
     ∧ outcome discover Stub.idle =
         Raise (RuntimeError "NetworkDiscovery is disabled"))
  ∧ (outcome stop (after scan Stub.idle) = Return tt
     ∧ outcome discover (after stop (after scan Stub.idle)) =
         Raise (RuntimeError "NetworkDiscovery is disabled")).
Proof.
  pose proof (@discover_requires_scanning Stub.Mdns Stub.Ssdp string string _ _)
    as (Hidle & Hfresh & Hstopped & _).
  split; [|split].
  - split; [reflexivity|]. apply Hidle. reflexivity.
  - split; [vm_compute; reflexivity|].
    apply (Hfresh Stub.env None). vm_compute. reflexivity.
  - split; [reflexivity|]. apply Hstopped. reflexivity.
Defined.

(** Counterexample to C2: on an idle coordinator the two lookups answer
    for a registered name, and raise [KeyError] for an unknown one. *)
Lemma query_idle_counterexample :
  is_discovering Stub.idle = false
  ∧ outcome (get_info "TypeA") Stub.idle = Return ["printer"]
  ∧ outcome (get_entries "TypeA") Stub.idle = Return ["printer"]
  ∧ outcome (get_info "nonexistent") Stub.idle = Raise (KeyError "nonexistent")
  ∧ ¬ (∃ msg, outcome (get_info "TypeA") Stub.idle = Raise (RuntimeError msg))
  ∧ ¬ (∃ msg, outcome (get_entries "TypeA") Stub.idle = Raise (RuntimeError msg)).
Proof.
  repeat split; try reflexivity; intros [msg Hmsg]; discriminate Hmsg.
Qed.

Lemma query_ignores_state_witness :
  is_discovering Stub.idle = false
  ∧ (∀ msg, outcome (get_info "TypeA") Stub.idle ≠ Raise (RuntimeError msg))
  ∧ outcome (get_entries "TypeA") Stub.idle =
      outcome (get_entries "TypeA") (after (set_is_discovering true) Stub.idle)
  ∧ outcome discover Stub.idle = Raise (RuntimeError "NetworkDiscovery is disabled").
Proof.
  split; [reflexivity|].
  destruct (query_ignores_state Stub.idle "TypeA" eq_refl) as (Hi & _ & _ & He & Hd).
  split; [exact Hi|]. split; [exact He|exact Hd].
Defined.

Lemma scan_times_calls_witness :
  is_discovering Stub.idle = false
  ∧ 0 < 3
  ∧ outcome (scan_times 3) Stub.idle = Return tt
  ∧ trace (scan_times 3) Stub.idle = [MdnsStart; SsdpScan; SsdpScan; SsdpScan]
  ∧ calls MdnsStart (trace (scan_times 3) Stub.idle) = 1
  ∧ calls SsdpScan (trace (scan_times 3) Stub.idle) = 3.
Proof.
  split; [reflexivity|]. split; [lia|]. split; [reflexivity|].
  destruct (scan_times_calls Stub.idle 3) as (Htr & Hstart & Hscan & _);
    [reflexivity|lia|reflexivity|].
  split; [exact Htr|]. split; [exact Hstart|exact Hscan].
Defined.

Lemma stop_once_witness :
  (is_discovering Stub.idle = false
   ∧ stop Stub.idle = (Return tt, Stub.idle, []))
  ∧ (is_discovering (after scan Stub.idle) = true
     ∧ trace stop (after scan Stub.idle) = [MdnsStop]
     ∧ outcome stop (after scan Stub.idle) = Return tt
     ∧ is_discovering (after stop (after scan Stub.idle)) = false
     ∧ trace stop (after stop (after scan Stub.idle)) = []).
Proof.
  split.
  - split; [reflexivity|]. apply (proj1 (stop_once Stub.idle)). reflexivity.
  - split; [reflexivity|].
    destruct (stop_once (after scan Stub.idle)) as [_ Hon].
    destruct (Hon eq_refl) as (Htr & _ & Hret).
    split; [exact Htr|]. split; [reflexivity|].
    destruct (Hret eq_refl) as [Hoff Hagain].
    split; [exact Hoff|]. unfold trace. rewrite Hagain. reflexivity.
Defined.

(** C5, on the code: registry load with the limit set [{TypeA}] when the
    plugins [TypeA] and [TypeB] exist should leave exactly the key
    [TypeA].  The two plugins are registered as [TypeA] and [TypeB] when
    there is no limit, but the loader compares the limit with the full
    package name, so the limit [{TypeA}] skips both and the registry is
    empty. *)
Lemma limit_of_type_names_skips_all :
  (∃ self : NetworkDiscovery Stub.Mdns Stub.Ssdp string string,
     __init__ Stub.env None = Return self
     ∧ PyDict.keys (discoverables self) = ["TypeA"; "TypeB"])
  ∧ (∃ self : NetworkDiscovery Stub.Mdns Stub.Ssdp string string,
       __init__ Stub.env (Some {["TypeA"]}) = Return self
       ∧ PyDict.keys (discoverables self) = []
       ∧ PyDict.keys (discoverables self) ≠ ["TypeA"]).
Proof.
  split.
  - exists Stub.idle. split; vm_compute; reflexivity.
  - eexists. split; [vm_compute; reflexivity|]. split; [reflexivity|discriminate].
Qed.

Lemma limit_keeps_listed_packages_witness :
  ∃ self : NetworkDiscovery Stub.Mdns Stub.Ssdp string string,
    __init__ Stub.env (Some {["netdisco.discoverables.TypeA"]}) = Return self
    ∧ NoDup (PyDict.keys (discoverables self))
    ∧ ("TypeA" ∈ PyDict.keys (discoverables self) ↔
         ∃ pkg, pkg ∈ walk_packages (@Stub.env Stub.Ssdp)
                ∧ pkg ∈ ({["netdisco.discoverables.TypeA"]} : gset string)
                ∧ plugin_name None pkg = Some "TypeA").
Proof.
  set (allowed := {["netdisco.discoverables.TypeA"]} : gset string).
  set (self := {| limit_discovery := Some allowed; mdns := MDNS.new;
                  ssdp := SSDP.new; discoverables := [("TypeA", Stub.TypeA)];
                  is_discovering := false |}
               : NetworkDiscovery Stub.Mdns Stub.Ssdp string string).
  assert (Hinit : __init__ Stub.env (Some allowed) = Return self)
    by (vm_compute; reflexivity).
  exists self. split; [exact Hinit|].
  destruct (limit_keeps_listed_packages Stub.env allowed self Hinit)
    as (Hnd & Hkeys & _).
  split; [exact Hnd|exact (Hkeys "TypeA")].
Defined.

(** Counterexample to C6: the foreground scanner is reached and raises,
    the exception reaches the caller, and the coordinator, idle before
    the call, is scanning after it. *)
Lemma scan_failure_counterexample :
  outcome scan Stub.offline = Raise (Foreign "socket.timeout")
  ∧ trace scan Stub.offline = [MdnsStart; SsdpScan]
  ∧ is_discovering Stub.offline = false
  ∧ is_discovering (after scan Stub.offline) = true
  ∧ is_discovering (after scan Stub.offline) ≠ is_discovering Stub.offline.
Proof. repeat split; try reflexivity. discriminate. Qed.

Lemma scan_foreground_failure_witness :
  (SSDP.scan (ssdp Stub.offline)).1 = Some (Foreign "socket.timeout")
  ∧ (is_discovering Stub.offline = false →
     (MDNS.start (mdns Stub.offline)).1 = None)
  ∧ outcome scan Stub.offline = Raise (Foreign "socket.timeout")
  ∧ is_discovering (after scan Stub.offline) = true.
Proof.
  split; [reflexivity|]. split; [reflexivity|].
  destruct (scan_foreground_failure Stub.offline (Foreign "socket.timeout"))
    as (Hraise & Hon & _); [reflexivity|reflexivity|].
  split; [exact Hraise|exact Hon].
Defined.

Lemma discover_scanning_witness :
  is_discovering (after scan Stub.idle) = true
  ∧ ∃ names,
      discover (after scan Stub.idle) = (Return names, after scan Stub.idle, [])
      ∧ names `sublist_of` PyDict.keys (discoverables (after scan Stub.idle)).
Proof.
  split; [reflexivity|].
  destruct (discover_scanning (after scan Stub.idle))
    as (names & Hrun & _ & Hsub & _); [reflexivity|].
  exists names. split; [exact Hrun|exact Hsub].
Defined.

Lemma query_lookup_witness :
  (("nonexistent" ∉ PyDict.keys (discoverables Stub.idle))
   ∧ get_entries "nonexistent" Stub.idle =
       (Raise (KeyError "nonexistent"), Stub.idle, []))
  ∧ (("nonexistent" ∉ PyDict.keys (discoverables (after scan Stub.idle)))
     ∧ get_entries "nonexistent" (after scan Stub.idle) =
         (Raise (KeyError "nonexistent"), after scan Stub.idle, []))
  ∧ ("TypeA" ∈ PyDict.keys (discoverables Stub.idle)
     ∧ ∃ checker,
         PyDict.getitem (discoverables Stub.idle) "TypeA" = Some checker
         ∧ get_info "TypeA" Stub.idle =
             (Return (Checker.get_info checker (mdns Stub.idle) (ssdp Stub.idle)),
              Stub.idle, [])).
Proof.
  assert (Habsent : "nonexistent" ∉ ["TypeA"; "TypeB"]).
  { intros Hin. repeat (apply elem_of_cons in Hin as [Hin|Hin]; [discriminate Hin|]).
    apply elem_of_nil in Hin. exact Hin. }
  split; [|split].
  - split; [exact Habsent|].
    apply (proj1 (query_lookup Stub.idle "nonexistent")). exact Habsent.
  - split; [exact Habsent|].
    apply (proj1 (query_lookup (after scan Stub.idle) "nonexistent")). exact Habsent.
  - assert (Hin : "TypeA" ∈ PyDict.keys (discoverables Stub.idle))
      by apply list_elem_of_here.
    split; [exact Hin|].
    destruct (proj2 (query_lookup Stub.idle "TypeA") Hin)
      as (checker & Hget & _ & Hinfo & _).
    exists checker. split; [exact Hget|exact Hinfo].
Defined.

Lemma registry_fixed_witness :
  __init__ Stub.env None = Return Stub.idle
  ∧ is_discovering Stub.idle = false
  ∧ discoverables
      (after (run_ops [OpScan; OpDiscover; OpGetInfo "TypeA"; OpStop;
                       OpGetEntries "nonexistent"; OpScan]) Stub.idle)
    = discoverables Stub.idle.
Proof.
  split; [vm_compute; reflexivity|].
  destruct (registry_fixed Stub.env None Stub.idle) as (Hoff & _ & Hops);
    [vm_compute; reflexivity|].
  split; [exact Hoff|apply Hops].
Defined.

Lemma scan_stop_scan_witness :
  outcome (scan ;; stop ;; scan) Stub.idle = Return tt
  ∧ is_discovering (after (scan ;; stop) Stub.idle) = false
  ∧ trace scan (after (scan ;; stop) Stub.idle) = [MdnsStart; SsdpScan]
  ∧ is_discovering (after (scan ;; stop ;; scan) Stub.idle) = true
  ∧ trace (scan ;; stop ;; scan) Stub.idle =
      [MdnsStart; SsdpScan; MdnsStop; MdnsStart; SsdpScan].
Proof.
  split; [reflexivity|].
  destruct (scan_stop_scan Stub.idle) as (Hoff & Htr & _ & Hon & Hall);
    [reflexivity|].
  split; [exact Hoff|]. split; [exact Htr|]. split; [exact Hon|].
  apply Hall. reflexivity.
Defined.

(** * Further properties of the loader *)

(** ** Package names *)

Section PackageNames.

Lemma contains_rsplit_last (c : ascii) (s : string) :
  PyStr.contains c s = false → PyStr.rsplit_last c s = None.
Proof.
  induction s as [|a s IH]; cbn; [done|].
  intros [Ha Hs]%orb_false_elim. by rewrite (IH Hs), Ha.
Qed.

(** A split gives back the name, and the part after the separator has
    no separator. *)
Lemma rsplit_last_Some (c : ascii) (s a b : string) :
  PyStr.rsplit_last c s = Some (a, b) →
  s = a +:+ String c b ∧ PyStr.contains c b = false.
Proof.
  revert a. induction s as [|x s IH]; intros a; cbn; [done|].
  destruct (PyStr.rsplit_last c s) as [[a' b']|] eqn:Hs.
  - intros [= <- <-]. destruct (IH a' eq_refl) as [-> Hb]. done.
  - destruct (Ascii.eqb_spec x c) as [->|_]; [|done].
    intros [= <- <-]. split; [done|]. by apply rsplit_last_None.
Qed.

Lemma rsplit_last_app (c : ascii) (a b : string) :
  PyStr.contains c b = false →
  PyStr.rsplit_last c (a +:+ String c b) = Some (a, b).
Proof.
  intros Hb. induction a as [|x a IH]; simpl.
  - by rewrite (contains_rsplit_last c b Hb), Ascii.eqb_refl.
  - by rewrite IH.
Qed.

Lemma endswith_refl (s : string) : PyStr.endswith s s = true.
Proof. destruct s; cbn [PyStr.endswith]; by rewrite String.eqb_refl. Qed.

(** [endswith] is the suffix test. *)
Lemma endswith_app (s suffix : string) :
  PyStr.endswith s suffix = true ↔ ∃ prefix, s = prefix +:+ suffix.
Proof.
  split.
  - induction s as [|a s IH].
    + cbn [PyStr.endswith]. destruct (String.eqb_spec "" suffix) as [<-|_]; [|done].
      by exists "".
    + change (PyStr.endswith (String a s) suffix)
        with (if String.eqb (String a s) suffix then true
              else PyStr.endswith s suffix).
      destruct (String.eqb_spec (String a s) suffix) as [<-|_].
      * by exists "".
      * intros [prefix ->]%IH. by exists (String a prefix).
  - intros [prefix ->]. induction prefix as [|a prefix IH].
    + apply endswith_refl.
    + change (PyStr.endswith (String a prefix +:+ suffix) suffix)
        with (if String.eqb (String a (prefix +:+ suffix)) suffix then true
              else PyStr.endswith (prefix +:+ suffix) suffix).
      by rewrite IH; destruct (String.eqb _ _).
Qed.

(** The packages the loop keeps, by their names: a parent that ends
    with the namespace, a dot, a last part without a dot, and a name
    that the limit, if any, holds. *)
Lemma plugin_name_Some (limit : option (gset string)) (pkg name : string) :
  plugin_name limit pkg = Some name ↔
  ∃ prefix,
    pkg = (prefix +:+ namespace) +:+ String "." name
    ∧ PyStr.contains "." name = false
    ∧ limited_out limit pkg = false.
Proof.
  unfold plugin_name, PyStr.rsplit. split.
  - destruct (PyStr.rsplit_last "." pkg) as [[p0 p1]|] eqn:Hsplit; cbn.
    + destruct (PyStr.endswith p0 namespace) eqn:Hend; cbn; [|done].
      destruct (limited_out limit pkg) eqn:Hlim; cbn; [done|].
      intros [= <-]. apply rsplit_last_Some in Hsplit as [-> Hdot].
      apply endswith_app in Hend as [prefix ->]. by exists prefix.
    + by destruct (_ && _).
  - intros (prefix & -> & Hdot & ->).
    rewrite (rsplit_last_app "." _ name Hdot). cbn.
    by rewrite (proj2 (endswith_app _ namespace)) by by exists prefix.
Qed.

End PackageNames.

(** ** Loops over a list in two parts *)

Section LoopParts.
Context {St A : Type}.

Lemma for_each_app (body : A → Py St unit) (xs ys : list A) (st : St) :
  outcome (for_each xs body) st = Return tt →
  outcome (for_each (xs ++ ys) body) st =
    outcome (for_each ys body) (after (for_each xs body) st)
  ∧ after (for_each (xs ++ ys) body) st =
      after (for_each ys body) (after (for_each xs body) st).
Proof.
  revert st. induction xs as [|x xs IH]; intros st Hret; [done|].
  cbn [for_each app] in *.
  destruct (bind_returned _ _ _ _ Hret) as ([] & Hx & Hxs).
  destruct (bind_run (body x) (λ _, for_each (xs ++ ys) body) st () Hx)
    as (-> & -> & _).
  destruct (bind_run (body x) (λ _, for_each xs body) st () Hx) as (_ & -> & _).
  by apply IH.
Qed.

Lemma for_each_app_returned (body : A → Py St unit) (xs ys : list A) (st : St) :
  outcome (for_each (xs ++ ys) body) st = Return tt →
  outcome (for_each xs body) st = Return tt.
Proof.
  revert st. induction xs as [|x xs IH]; intros st Hret; [done|].
  cbn [for_each app] in *.
  destruct (bind_returned _ _ _ _ Hret) as ([] & Hx & Hxs).
  destruct (bind_run (body x) (λ _, for_each xs body) st () Hx) as (-> & _).
  by apply IH.
Qed.

(** A property kept by the turns for the elements of the list holds
    after the loop. *)
Lemma for_each_invariant_elem (P : St → Prop) (body : A → Py St unit)
    (xs : list A) (st : St) :
  (∀ x st', x ∈ xs → P st' → P (after (body x) st')) →
  P st → P (after (for_each xs body) st).
Proof.
  revert st. induction xs as [|x xs IH]; intros st Hstep Hst; [done|].
  cbn [for_each]. destruct (outcome (body x) st) as [[]|e] eqn:Hx.
  - destruct (bind_run (body x) (λ _, for_each xs body) st () Hx) as (_ & -> & _).
    apply IH.
    + intros y st' Hy. by apply Hstep, list_elem_of_further.
    + by apply Hstep; [apply list_elem_of_here|].
  - destruct (bind_raised (body x) (λ _, for_each xs body) st e Hx) as (_ & -> & _).
    by apply Hstep; [apply list_elem_of_here|].
Qed.

End LoopParts.

(** ** Dictionary lookups after assignments *)

Section DictLookup.
Context {V : Type}.

Lemma getitem_setitem_eq (d : list (string * V)) (k : string) (v : V) :
  PyDict.getitem (PyDict.setitem d k v) k = Some v.
Proof.
  induction d as [|[k' v'] d IH]; cbn.
  - by rewrite String.eqb_refl.
  - destruct (String.eqb_spec k' k) as [->|Hne]; cbn.
    + by rewrite String.eqb_refl.
    + by destruct (String.eqb_spec k' k).
Qed.

Lemma getitem_setitem_ne (d : list (string * V)) (k k' : string) (v : V) :
  k ≠ k' → PyDict.getitem (PyDict.setitem d k v) k' = PyDict.getitem d k'.
Proof.
  intros Hne. induction d as [|[k0 v0] d IH]; cbn.
  - by destruct (String.eqb_spec k k').
  - destruct (String.eqb_spec k0 k) as [->|Hne0]; cbn.
    + by destruct (String.eqb_spec k k').
    + by rewrite IH.
Qed.

Lemma getitem_elem_NoDup (d : list (string * V)) (k : string) (v : V) :
  NoDup (PyDict.keys d) → (k, v) ∈ d → PyDict.getitem d k = Some v.
Proof.
  unfold PyDict.keys. induction d as [|[k0 v0] d IH]; cbn.
  - by intros _ ?%elem_of_nil.
  - intros [Hk0 Hd]%NoDup_cons [[= -> ->]|Hin]%elem_of_cons.
    + by rewrite String.eqb_refl.
    + destruct (String.eqb_spec k0 k) as [->|_]; [|by apply IH].
      destruct Hk0. change k with (fst (k, v)). by apply list_elem_of_fmap_2.
Qed.

End DictLookup.

(** ** The registry the loader builds *)

Section LoadedRegistry.
Context {Mdns Ssdp Info Entry : Type}.
Context `{!MDNS.Adapter Mdns} `{!SSDP.Adapter Ssdp}.

(** X1: the keys of the registry of a constructed coordinator are the
    last parts of the walked package names of the form
    [prefix ++ "netdisco.discoverables" ++ "." ++ name], with no dot in
    [name] and any [prefix], also a non-empty one, that the limit lets
    through. *)
Theorem registry_keys_by_name (env : PluginEnv Mdns Ssdp Info Entry)
    (limit : option (gset string)) (self : NetworkDiscovery Mdns Ssdp Info Entry) :
  __init__ env limit = Return self →
  ∀ name, name ∈ PyDict.keys (discoverables self) ↔
    ∃ prefix,
      (prefix +:+ namespace) +:+ String "." name ∈ walk_packages env
      ∧ PyStr.contains "." name = false
      ∧ limited_out limit ((prefix +:+ namespace) +:+ String "." name) = false.
Proof.
  intros (_ & _ & _ & Hkeys)%init_fresh name. rewrite Hkeys. split.
  - intros (pkg & Hpkg & (prefix & -> & Hdot & Hlim)%plugin_name_Some).
    by exists prefix.
  - intros (prefix & Hpkg & Hdot & Hlim). eexists. split; [exact Hpkg|].
    apply plugin_name_Some. by exists prefix.
Qed.

(** X2: the loader fails fast.  When the packages walked before [pkg]
    load, and [pkg] is kept but its import raises, or its module gives
    no checker, the constructor raises that exception and returns no
    coordinator, whatever comes after [pkg]. *)
Theorem load_fails_fast (env : PluginEnv Mdns Ssdp Info Entry)
    (limit : option (gset string)) (pre post : list string) (pkg : string)
    (e : PyExn) :
  walk_packages env = pre ++ pkg :: post →
  (∀ p, p ∈ pre → is_Some (plugin_name limit p) → loadable env p) →
  is_Some (plugin_name limit pkg) →
  (import_module env pkg = Raise e
   ∨ ∃ module, import_module env pkg = Return module
               ∧ Discoverable module = Raise e) →
  __init__ env limit = Raise e.
Proof.
  intros Hwalk Hpre [name Hname] Hfail. rewrite init_run, Hwalk.
  set (self0 := {| limit_discovery := limit; mdns := MDNS.new; ssdp := SSDP.new;
                   discoverables := []; is_discovering := false |}).
  assert (Hret : outcome (for_each pre (load_package env)) self0 = Return tt)
    by by apply load_loop_returns.
  destruct (for_each_app (load_package env) pre (pkg :: post) self0 Hret) as [-> _].
  destruct (load_loop_framed env pre self0) as [(Hlim & _) _].
  set (self1 := after (for_each pre (load_package env)) self0) in *.
  assert (Hpkg : outcome (load_package env pkg) self1 = Raise e).
  { unfold outcome. rewrite load_package_run, Hlim. cbn. rewrite Hname.
    destruct Hfail as [->|(module & -> & ->)]; done. }
  cbn [for_each].
  by destruct (bind_raised (load_package env pkg)
                 (λ _, for_each post (load_package env)) self1 e Hpkg) as (-> & _).
Qed.

(** X3: the last package wins.  When several kept packages have the
    same last part, the registry holds under that name the checker of
    the one walked last. *)
Theorem registry_last_wins (env : PluginEnv Mdns Ssdp Info Entry)
    (limit : option (gset string)) (self : NetworkDiscovery Mdns Ssdp Info Entry)
    (pre post : list string) (pkg name : string) (module : PyModule Mdns Ssdp Info Entry)
    (checker : Checker.t Mdns Ssdp Info Entry) :
  __init__ env limit = Return self →
  walk_packages env = pre ++ pkg :: post →
  plugin_name limit pkg = Some name →
  (∀ p, p ∈ post → plugin_name limit p ≠ Some name) →
  import_module env pkg = Return module →
  Discoverable module = Return checker →
  PyDict.getitem (discoverables self) name = Some checker.
Proof.
  rewrite init_run. intros Hinit Hwalk Hname Hpost Himport Hchecker.
  rewrite Hwalk in Hinit.
  set (self0 := {| limit_discovery := limit; mdns := MDNS.new; ssdp := SSDP.new;
                   discoverables := []; is_discovering := false |}) in *.
  destruct (outcome _ self0) as [[]|e] eqn:Hret; [|discriminate].
  injection Hinit as <-.
  pose proof (for_each_app_returned _ _ _ _ Hret) as Hpre.
  destruct (for_each_app (load_package env) pre (pkg :: post) self0 Hpre)
    as [Hout ->].
  rewrite Hout in Hret. clear Hout.
  destruct (load_loop_framed env pre self0) as [(Hlim & _) _].
  set (self1 := after (for_each pre (load_package env)) self0) in *.
  cbn [for_each] in *.
  destruct (bind_returned _ _ _ _ Hret) as ([] & Hpkg & _).
  destruct (bind_run (load_package env pkg)
              (λ _, for_each post (load_package env)) self1 () Hpkg) as (_ & -> & _).
  apply (for_each_invariant_elem
           (λ st, limit_discovery st = limit
                  ∧ PyDict.getitem (discoverables st) name = Some checker)).
  - intros p st Hp [Hl Hget]. unfold after. rewrite load_package_run, Hl.
    destruct (plugin_name limit p) as [name'|] eqn:Hp'; [|done].
    destruct (import_module env p) as [module'|e]; [|done].
    destruct (Discoverable module') as [checker'|e]; [|done].
    split; [done|]. cbn. rewrite getitem_setitem_ne; [done|].
    intros ->. by apply (Hpost p).
  - unfold after. rewrite load_package_run, Hlim. cbn.
    rewrite Hname, Himport, Hchecker. split; [done|]. cbn.
    apply getitem_setitem_eq.
Qed.

Lemma load_package_key_order (env : PluginEnv Mdns Ssdp Info Entry) (pkg : string)
    (self : NetworkDiscovery Mdns Ssdp Info Entry) :
  outcome (load_package env pkg) self = Return tt →
  PyDict.keys (discoverables (after (load_package env pkg) self)) =
    match plugin_name (limit_discovery self) pkg with
    | Some name =>
        if decide (name ∈ PyDict.keys (discoverables self))
        then PyDict.keys (discoverables self)
        else PyDict.keys (discoverables self) ++ [name]
    | None => PyDict.keys (discoverables self)
    end.
Proof.
  unfold after, outcome. rewrite load_package_run.
  destruct (plugin_name (limit_discovery self) pkg) as [name|]; [|done].
  destruct (import_module env pkg) as [module|e]; [|done].
  destruct (Discoverable module) as [checker|e]; [|done].
  intros _. apply keys_setitem.
Qed.

Lemma load_loop_key_order (env : PluginEnv Mdns Ssdp Info Entry) (pkgs : list string)
    (self : NetworkDiscovery Mdns Ssdp Info Entry) :
  outcome (for_each pkgs (load_package env)) self = Return tt →
  NoDup (PyDict.keys (discoverables self)
         ++ omap (plugin_name (limit_discovery self)) pkgs) →
  PyDict.keys (discoverables (after (for_each pkgs (load_package env)) self)) =
    PyDict.keys (discoverables self)
    ++ omap (plugin_name (limit_discovery self)) pkgs.
Proof.
  revert self. induction pkgs as [|pkg pkgs IH]; intros self Hret Hnd.
  - cbn. by rewrite app_nil_r.
  - cbn [for_each] in *.
    destruct (bind_returned _ _ _ _ Hret) as ([] & Hpkg & Hrest).
    destruct (bind_run (load_package env pkg)
                (λ _, for_each pkgs (load_package env)) self () Hpkg) as (_ & -> & _).
    destruct (load_package_framed env pkg self) as [(Hlim & _) _].
    pose proof (load_package_key_order env pkg self Hpkg) as Hkeys.
    cbn [omap list_omap] in *.
    destruct (plugin_name (limit_discovery self) pkg) as [name|] eqn:Hname.
    + rewrite decide_False in Hkeys.
      2:{ apply NoDup_app in Hnd as (_ & Hnd & _). intros Hin.
          apply (Hnd name Hin), list_elem_of_here. }
      rewrite (IH _ Hrest); rewrite Hlim, Hkeys, <-app_assoc; done.
    + rewrite (IH _ Hrest); rewrite Hlim, Hkeys; done.
Qed.

(** X4: when the kept packages have different last parts, the keys of
    the registry are those parts in the order of the walk. *)
Theorem registry_key_order (env : PluginEnv Mdns Ssdp Info Entry)
    (limit : option (gset string)) (self : NetworkDiscovery Mdns Ssdp Info Entry) :
  __init__ env limit = Return self →
  NoDup (omap (plugin_name limit) (walk_packages env)) →
  PyDict.keys (discoverables self) = omap (plugin_name limit) (walk_packages env).
Proof.
  rewrite init_run. intros Hinit Hnd.
  set (self0 := {| limit_discovery := limit; mdns := MDNS.new; ssdp := SSDP.new;
                   discoverables := []; is_discovering := false |}) in *.
  destruct (outcome _ self0) as [[]|e] eqn:Hret; [|discriminate].
  injection Hinit as <-.
  by rewrite (load_loop_key_order env _ self0 Hret).
Qed.

(** No public operation assigns to the limit. *)
Lemma run_op_limit (o : Op) (self : NetworkDiscovery Mdns Ssdp Info Entry) :
  limit_discovery (after (run_op o) self) = limit_discovery self.
Proof.
  destruct o, self as [l m s d [|]]; unfold run_op; py_unfold;
    repeat match goal with
           | |- context [MDNS.start ?m] => destruct (MDNS.start m) as [[?|] ?]; cbn
           | |- context [MDNS.stop ?m] => destruct (MDNS.stop m) as [[?|] ?]; cbn
           | |- context [SSDP.scan ?s] => destruct (SSDP.scan s) as [[?|] ?]; cbn
           | |- context [PyDict.getitem ?d ?k] => destruct (PyDict.getitem d k); cbn
           end; reflexivity.
Qed.

Lemma run_ops_keeps (ops : list Op) (self : NetworkDiscovery Mdns Ssdp Info Entry) :
  limit_discovery (after (run_ops ops) self) = limit_discovery self
  ∧ discoverables (after (run_ops ops) self) = discoverables self.
Proof.
  apply (for_each_invariant
           (λ st, limit_discovery st = limit_discovery self
                  ∧ discoverables st = discoverables self)); [|done].
  intros o st [<- <-]. split; [apply run_op_limit|apply run_op_registry].
Qed.

(** X7: [discover] on a constructed coordinator never lists a name
    twice, whatever operations came before. *)
Theorem discover_no_duplicates (env : PluginEnv Mdns Ssdp Info Entry)
    (limit : option (gset string)) (self : NetworkDiscovery Mdns Ssdp Info Entry)
    (ops : list Op) (names : list string) :
  __init__ env limit = Return self →
  outcome discover (after (run_ops ops) self) = Return names →
  NoDup names.
Proof.
  intros (_ & _ & Hnd & _)%init_fresh Hnames.
  destruct (run_ops_keeps ops self) as [_ Hd]. rewrite <-Hd in Hnd.
  destruct (after (run_ops ops) self) as [l m s d [|]]; py_unfold; [|done].
  injection Hnames as <-.
  eapply sublist_NoDup; [exact Hnd|apply discovered_sublist].
Qed.

(** X8: every name [discover] lists can be looked up.  On a constructed
    coordinator, [get_info] and [get_entries] of a listed name return,
    and they ask the very checker that reported the name discovered. *)
Theorem discovered_names_resolve (env : PluginEnv Mdns Ssdp Info Entry)
    (limit : option (gset string)) (self : NetworkDiscovery Mdns Ssdp Info Entry)
    (ops : list Op) (names : list string) (name : string) :
  __init__ env limit = Return self →
  outcome discover (after (run_ops ops) self) = Return names →
  name ∈ names →
  ∃ checker,
    PyDict.getitem (discoverables self) name = Some checker
    ∧ Checker.is_discovered checker (mdns (after (run_ops ops) self))
        (ssdp (after (run_ops ops) self)) = true
    ∧ outcome (get_info name) (after (run_ops ops) self) =
        Return (Checker.get_info checker (mdns (after (run_ops ops) self))
                  (ssdp (after (run_ops ops) self)))
    ∧ outcome (get_entries name) (after (run_ops ops) self) =
        Return (Checker.get_entries checker (mdns (after (run_ops ops) self))
                  (ssdp (after (run_ops ops) self))).
Proof.
  intros (_ & _ & Hnd & _)%init_fresh Hnames Hname.
  destruct (run_ops_keeps ops self) as [_ Hd]. rewrite <-Hd in *.
  destruct (after (run_ops ops) self) as [l m s d [|]]; py_unfold; [|done].
  injection Hnames as <-.
  apply discovered_elem in Hname as (checker & Hin & Hdisc).
  exists checker. rewrite (getitem_elem_NoDup d name checker Hnd Hin). done.
Qed.

End LoadedRegistry.

(** * Further properties of the lifecycle *)

Section LifecycleEdges.
Context {Mdns Ssdp Info Entry : Type}.
Context `{!MDNS.Adapter Mdns} `{!SSDP.Adapter Ssdp}.

(** X9: when the background scanner fails to start, [scan] on an idle
    coordinator raises that exception, does not trigger the foreground
    scanner and leaves the coordinator idle, so that [discover] still
    raises and the next [scan] tries to start again. *)
Theorem scan_background_failure
    (self : NetworkDiscovery Mdns Ssdp Info Entry) (e : PyExn) :
  is_discovering self = false →
  (MDNS.start (mdns self)).1 = Some e →
  outcome scan self = Raise e
  ∧ trace scan self = [MdnsStart]
  ∧ is_discovering (after scan self) = false
  ∧ ssdp (after scan self) = ssdp self
  ∧ mdns (after scan self) = (MDNS.start (mdns self)).2
  ∧ outcome discover (after scan self) =
      Raise (RuntimeError "NetworkDiscovery is disabled")
  ∧ MdnsStart ∈ trace scan (after scan self).
Proof.
  intros Hidle Hstart.
  assert (Hrun : scan self =
            (Raise e, after (set_mdns (MDNS.start (mdns self)).2) self, [MdnsStart])).
  { destruct self as [l m s d on]; py_unfold. subst on. cbn.
    destruct (MDNS.start m) as [r m']; cbn in *. by subst r. }
  assert (Hafter : after scan self =
                   after (set_mdns (MDNS.start (mdns self)).2) self)
    by (unfold after at 1; by rewrite Hrun).
  assert (Hstill : is_discovering (after scan self) = false)
    by by rewrite Hafter.
  split; [unfold outcome; by rewrite Hrun|].
  split; [unfold trace; by rewrite Hrun|].
  split; [done|]. split; [by rewrite Hafter|]. split; [by rewrite Hafter|]. split.
  - destruct (after scan self) as [l m s d on]; py_unfold. by subst on.
  - rewrite scan_trace, Hstill.
    destruct (MDNS.start (mdns (after scan self))).1; apply list_elem_of_here.
Qed.

(** X10: when the background scanner fails to stop, [stop] on a
    scanning coordinator raises that exception and leaves the
    coordinator scanning: [discover] still answers, a further [scan]
    does not start the background scanner again, and a further [stop]
    calls the background scanner's stop again. *)
Theorem stop_background_failure
    (self : NetworkDiscovery Mdns Ssdp Info Entry) (e : PyExn) :
  is_discovering self = true →
  (MDNS.stop (mdns self)).1 = Some e →
  outcome stop self = Raise e
  ∧ trace stop self = [MdnsStop]
  ∧ is_discovering (after stop self) = true
  ∧ discoverables (after stop self) = discoverables self
  ∧ (∃ names, outcome discover (after stop self) = Return names)
  ∧ trace scan (after stop self) = [SsdpScan]
  ∧ trace stop (after stop self) = [MdnsStop].
Proof.
  intros Hon Hstop.
  assert (Hrun : stop self =
            (Raise e, after (set_mdns (MDNS.stop (mdns self)).2) self, [MdnsStop])).
  { destruct self as [l m s d on]; py_unfold. subst on. cbn.
    destruct (MDNS.stop m) as [r m']; cbn in *. by subst r. }
  assert (Hstill : is_discovering (after stop self) = true).
  { unfold after at 1. rewrite Hrun. cbn. done. }
  split; [unfold outcome; by rewrite Hrun|].
  split; [unfold trace; by rewrite Hrun|].
  split; [done|]. split; [unfold after at 1; by rewrite Hrun|]. split.
  - destruct (after stop self) as [l m s d on]; py_unfold. subst on. eauto.
  - by rewrite scan_trace, stop_trace, Hstill.
Qed.

Lemma calls_app (c : Call) (tr tr' : list Call) :
  calls c (tr ++ tr') = calls c tr + calls c tr'.
Proof. unfold calls. by rewrite filter_app, length_app. Qed.

Lemma run_op_returns (o : Op) (self : NetworkDiscovery Mdns Ssdp Info Entry) :
  outcome (run_op o) self = Return tt.
Proof.
  unfold outcome, run_op, forget.
  by destruct o;
    match goal with |- context [?m self] => destruct (m self) as [[??]?] end.
Qed.

Lemma run_ops_cons (o : Op) (ops : list Op)
    (self : NetworkDiscovery Mdns Ssdp Info Entry) :
  after (run_ops (o :: ops)) self = after (run_ops ops) (after (run_op o) self)
  ∧ trace (run_ops (o :: ops)) self =
      trace (run_op o) self ++ trace (run_ops ops) (after (run_op o) self).
Proof.
  unfold run_ops. cbn [for_each].
  by destruct (bind_run (run_op o) (λ _, for_each ops run_op) self ()
                 (run_op_returns o self)) as (_ & -> & ->).
Qed.

(** One operation with a background scanner that never raises. *)
Lemma run_op_balance (o : Op) (self : NetworkDiscovery Mdns Ssdp Info Entry) :
  (∀ m, (MDNS.start m).1 = None) → (∀ m, (MDNS.stop m).1 = None) →
  calls MdnsStart (trace (run_op o) self)
    + (if is_discovering self then 1 else 0) =
  calls MdnsStop (trace (run_op o) self)
    + (if is_discovering (after (run_op o) self) then 1 else 0).
Proof.
  intros Hstart Hstop.
  destruct o, self as [l m s d [|]]; unfold run_op; py_unfold;
    try specialize (Hstart m); try specialize (Hstop m);
    repeat match goal with
           | |- context [MDNS.start ?m] => destruct (MDNS.start m) as [[?|] ?]; cbn in *
           | |- context [MDNS.stop ?m] => destruct (MDNS.stop m) as [[?|] ?]; cbn in *
           | |- context [SSDP.scan ?s] => destruct (SSDP.scan s) as [[?|] ?]; cbn in *
           | |- context [PyDict.getitem ?d ?k] => destruct (PyDict.getitem d k); cbn in *
           end; try discriminate; reflexivity.
Qed.

(** X11: starts and stops balance.  With a background scanner whose
    [start] and [stop] never raise, after any sequence of public
    operations, whatever the foreground scanner does, the background
    scanner has been started as often as it has been stopped, once more
    if the coordinator has become scanning and once less if it has
    become idle. *)
Theorem starts_and_stops_balance (self : NetworkDiscovery Mdns Ssdp Info Entry)
    (ops : list Op) :
  (∀ m, (MDNS.start m).1 = None) → (∀ m, (MDNS.stop m).1 = None) →
  calls MdnsStart (trace (run_ops ops) self)
    + (if is_discovering self then 1 else 0) =
  calls MdnsStop (trace (run_ops ops) self)
    + (if is_discovering (after (run_ops ops) self) then 1 else 0).
Proof.
  intros Hstart Hstop. revert self.
  induction ops as [|o ops IH]; intros self; [done|].
  destruct (run_ops_cons o ops self) as [-> ->]. rewrite !calls_app.
  pose proof (run_op_balance o self Hstart Hstop).
  pose proof (IH (after (run_op o) self)). lia.
Qed.

(** The scanner calls of one operation. *)
Lemma run_op_calls (o : Op) (self : NetworkDiscovery Mdns Ssdp Info Entry) :
  calls MdnsStart (trace (run_op o) self) ≤ occurrences OpScan [o]
  ∧ calls SsdpScan (trace (run_op o) self) ≤ occurrences OpScan [o]
  ∧ calls MdnsStop (trace (run_op o) self) ≤ occurrences OpStop [o].
Proof.
  destruct o, self as [l m s d [|]]; unfold run_op; py_unfold;
    repeat match goal with
           | |- context [MDNS.start ?m] => destruct (MDNS.start m) as [[?|] ?]; cbn
           | |- context [MDNS.stop ?m] => destruct (MDNS.stop m) as [[?|] ?]; cbn
           | |- context [SSDP.scan ?s] => destruct (SSDP.scan s) as [[?|] ?]; cbn
           | |- context [PyDict.getitem ?d ?k] => destruct (PyDict.getitem d k); cbn
           end; vm_compute; repeat split; lia.
Qed.

(** X12: only [scan] reaches the network, and only [stop] stops the
    background scanner.  In any sequence of public operations, whatever
    their outcomes, each scanner method is called at most once per
    [scan], respectively per [stop]; a sequence of queries calls no
    scanner at all. *)
Theorem scanner_calls_bounded (self : NetworkDiscovery Mdns Ssdp Info Entry)
    (ops : list Op) :
  calls MdnsStart (trace (run_ops ops) self) ≤ occurrences OpScan ops
  ∧ calls SsdpScan (trace (run_ops ops) self) ≤ occurrences OpScan ops
  ∧ calls MdnsStop (trace (run_ops ops) self) ≤ occurrences OpStop ops
  ∧ (occurrences OpScan ops = 0 → occurrences OpStop ops = 0 →
     trace (run_ops ops) self = []).
Proof.
  assert (Hbound : ∀ self : NetworkDiscovery Mdns Ssdp Info Entry,
            calls MdnsStart (trace (run_ops ops) self) ≤ occurrences OpScan ops
            ∧ calls SsdpScan (trace (run_ops ops) self) ≤ occurrences OpScan ops
            ∧ calls MdnsStop (trace (run_ops ops) self) ≤ occurrences OpStop ops).
  { induction ops as [|o ops IH]; intros st; [by vm_compute|].
    destruct (run_ops_cons o ops st) as [_ ->]. rewrite !calls_app.
    destruct (run_op_calls o st) as (H1 & H2 & H3).
    destruct (IH (after (run_op o) st)) as (H4 & H5 & H6).
    change (o :: ops) with ([o] ++ ops). unfold occurrences in *.
    rewrite !filter_app, !length_app. lia. }
  destruct (Hbound self) as (Hs & Hf & Hp). split; [done|]. split; [done|].
  split; [done|]. intros Hscan Hstop. rewrite Hscan in *. rewrite Hstop in *.
  destruct (trace (run_ops ops) self) as [|[| |] tr]; [done| | |];
    unfold calls in *; rewrite filter_cons in *;
    [rewrite decide_True in Hs by done|rewrite decide_True in Hp by done|
     rewrite decide_True in Hf by done]; cbn in *; lia.
Qed.

End LifecycleEdges.

(** ** Construction and the scanners *)

Section Construction.
Context {Mdns Ssdp Info Entry : Type}.
Context `{!MDNS.Adapter Mdns} `{!SSDP.Adapter Ssdp}.

(** X13: loading never touches the scanners.  [_load_device_support],
    whether it returns or raises, calls no scanner method and leaves
    both scanners, the limit and the state as they were; a coordinator
    the constructor returns therefore has the limit it was given and
    two scanners that were never started nor asked to scan. *)
Theorem loading_is_offline (env : PluginEnv Mdns Ssdp Info Entry)
    (limit : option (gset string)) (self : NetworkDiscovery Mdns Ssdp Info Entry) :
  __init__ env limit = Return self →
  (mdns self = MDNS.new ∧ ssdp self = SSDP.new ∧ limit_discovery self = limit)
  ∧ ∀ st : NetworkDiscovery Mdns Ssdp Info Entry,
      trace (_load_device_support env) st = []
      ∧ framed st (after (_load_device_support env) st).
Proof.
  intros Hinit. split.
  - rewrite init_run in Hinit.
    set (self0 := {| limit_discovery := limit; mdns := MDNS.new; ssdp := SSDP.new;
                     discoverables := []; is_discovering := false |}) in Hinit.
    destruct (outcome (for_each (walk_packages env) (load_package env)) self0)
      as [[]|e]; [|discriminate].
    injection Hinit as <-.
    by destruct (load_loop_framed env (walk_packages env) self0)
      as [(-> & -> & -> & _) _].
  - intros st. unfold _load_device_support.
    destruct (bind_run (set_discoverables [])
                (λ _, for_each (walk_packages env) (load_package env)) st ()
                eq_refl) as (_ & -> & ->).
    destruct (load_loop_framed env (walk_packages env)
                (after (set_discoverables []) st)) as [Hfr ->].
    split; [done|exact Hfr].
Qed.

End Construction.

Lemma loading_is_offline_witness :
  __init__ Stub.env None = Return Stub.idle
  ∧ mdns Stub.idle = MDNS.new
  ∧ trace (_load_device_support Stub.env) (after scan Stub.idle) = []
  ∧ mdns (after (_load_device_support Stub.env) (after scan Stub.idle)) =
      mdns (after scan Stub.idle).
Proof.
  assert (Hinit : __init__ Stub.env None = Return Stub.idle)
    by (vm_compute; reflexivity).
  split; [exact Hinit|].
  destruct (loading_is_offline Stub.env None Stub.idle Hinit)
    as ((Hm & _ & _) & Hany).
  split; [exact Hm|].
  destruct (Hany (after scan Stub.idle)) as (Htr & _ & Hmdns & _).
  split; [exact Htr|exact Hmdns].
Defined.

(** ** The further properties on the stub and faulty collaborators *)

Lemma registry_keys_by_name_witness :
  ∃ self : NetworkDiscovery Stub.Mdns Stub.Ssdp string string,
    __init__ Faulty.vendored_env None = Return self
    ∧ ("TypeA" ∈ PyDict.keys (discoverables self) ↔
         ∃ prefix,
           (prefix +:+ namespace) +:+ String "." "TypeA"
             ∈ walk_packages Faulty.vendored_env
           ∧ PyStr.contains "." "TypeA" = false
           ∧ limited_out None ((prefix +:+ namespace) +:+ String "." "TypeA") = false).
Proof.
  set (self := {| limit_discovery := None; mdns := MDNS.new; ssdp := SSDP.new;
                  discoverables := [("TypeA", Stub.TypeB)];
                  is_discovering := false |}
               : NetworkDiscovery Stub.Mdns Stub.Ssdp string string).
  assert (Hinit : __init__ Faulty.vendored_env None = Return self)
    by (vm_compute; reflexivity).
  exists self. split; [exact Hinit|].
  exact (registry_keys_by_name Faulty.vendored_env None self Hinit "TypeA").
Defined.

Lemma load_fails_fast_witness :
  walk_packages Faulty.broken_env =
    ["netdisco.discoverables.TypeA"] ++ "netdisco.discoverables.broken"
      :: ["netdisco.discoverables.TypeB"]
  ∧ plugin_name None "netdisco.discoverables.broken" = Some "broken"
  ∧ import_module Faulty.broken_env "netdisco.discoverables.broken" =
      Raise (Foreign "ImportError")
  ∧ __init__ Faulty.broken_env None = Raise (Foreign "ImportError").
Proof.
  split; [reflexivity|]. split; [reflexivity|]. split; [reflexivity|].
  apply (load_fails_fast Faulty.broken_env None ["netdisco.discoverables.TypeA"]
           ["netdisco.discoverables.TypeB"] "netdisco.discoverables.broken").
  - reflexivity.
  - intros p Hp _. apply list_elem_of_singleton in Hp. subst p.
    eexists. eexists. split; reflexivity.
  - exists "broken". reflexivity.
  - left. reflexivity.
Defined.

Lemma registry_last_wins_witness :
  ∃ self : NetworkDiscovery Stub.Mdns Stub.Ssdp string string,
    __init__ Faulty.vendored_env None = Return self
    ∧ plugin_name None "netdisco.discoverables.TypeA" = Some "TypeA"
    ∧ plugin_name None "vendor.netdisco.discoverables.TypeA" = Some "TypeA"
    ∧ PyDict.getitem (discoverables self) "TypeA" = Some Stub.TypeB.
Proof.
  set (self := {| limit_discovery := None; mdns := MDNS.new; ssdp := SSDP.new;
                  discoverables := [("TypeA", Stub.TypeB)];
                  is_discovering := false |}
               : NetworkDiscovery Stub.Mdns Stub.Ssdp string string).
  assert (Hinit : __init__ Faulty.vendored_env None = Return self)
    by (vm_compute; reflexivity).
  exists self. split; [exact Hinit|]. split; [reflexivity|]. split; [reflexivity|].
  apply (registry_last_wins Faulty.vendored_env None self
           ["netdisco.discoverables.TypeA"] []
           "vendor.netdisco.discoverables.TypeA" "TypeA"
           {| Discoverable := Return Stub.TypeB |} Stub.TypeB Hinit).
  - reflexivity.
  - reflexivity.
  - intros p Hp. apply elem_of_nil in Hp. destruct Hp.
  - reflexivity.
  - reflexivity.
Defined.

Lemma registry_key_order_witness :
  __init__ Stub.env None = Return Stub.idle
  ∧ omap (plugin_name None) (walk_packages (@Stub.env Stub.Ssdp)) = ["TypeA"; "TypeB"]
  ∧ PyDict.keys (discoverables Stub.idle) = ["TypeA"; "TypeB"].
Proof.
  assert (Hinit : __init__ Stub.env None = Return Stub.idle)
    by (vm_compute; reflexivity).
  split; [exact Hinit|]. split; [reflexivity|].
  apply (registry_key_order Stub.env None Stub.idle Hinit).
  change (NoDup ["TypeA"; "TypeB"]).
  apply NoDup_cons. split.
  - intros Hin. apply list_elem_of_singleton in Hin. discriminate Hin.
  - apply NoDup_singleton.
Defined.

Lemma discover_no_duplicates_witness :
  __init__ Stub.env None = Return Stub.idle
  ∧ outcome discover (after (run_ops [OpScan]) Stub.idle) = Return ["TypeA"]
  ∧ NoDup ["TypeA"].
Proof.
  assert (Hinit : __init__ Stub.env None = Return Stub.idle)
    by (vm_compute; reflexivity).
  split; [exact Hinit|]. split; [reflexivity|].
  apply (discover_no_duplicates Stub.env None Stub.idle [OpScan] ["TypeA"] Hinit).
  reflexivity.
Defined.

Lemma discovered_names_resolve_witness :
  __init__ Stub.env None = Return Stub.idle
  ∧ outcome discover (after (run_ops [OpScan]) Stub.idle) = Return ["TypeA"]
  ∧ ∃ checker,
      PyDict.getitem (discoverables Stub.idle) "TypeA" = Some checker
      ∧ outcome (get_info "TypeA") (after (run_ops [OpScan]) Stub.idle) =
          Return (Checker.get_info checker
                    (mdns (after (run_ops [OpScan]) Stub.idle))
                    (ssdp (after (run_ops [OpScan]) Stub.idle))).
Proof.
  assert (Hinit : __init__ Stub.env None = Return Stub.idle)
    by (vm_compute; reflexivity).
  split; [exact Hinit|]. split; [reflexivity|].
  destruct (discovered_names_resolve Stub.env None Stub.idle [OpScan] ["TypeA"]
              "TypeA" Hinit) as (checker & Hget & _ & Hinfo & _).
  - reflexivity.
  - apply list_elem_of_here.
  - exists checker. split; [exact Hget|exact Hinfo].
Defined.

Lemma scan_background_failure_witness :
  is_discovering Faulty.idle = false
  ∧ (MDNS.start (mdns Faulty.idle)).1 = Some (Foreign "OSError")
  ∧ outcome scan Faulty.idle = Raise (Foreign "OSError")
  ∧ trace scan Faulty.idle = [MdnsStart]
  ∧ is_discovering (after scan Faulty.idle) = false.
Proof.
  split; [reflexivity|]. split; [reflexivity|].
  destruct (scan_background_failure Faulty.idle (Foreign "OSError"))
    as (Hraise & Htr & Hidle & _); [reflexivity|reflexivity|].
  split; [exact Hraise|]. split; [exact Htr|exact Hidle].
Defined.

Lemma stop_background_failure_witness :
  is_discovering Faulty.scanning = true
  ∧ (MDNS.stop (mdns Faulty.scanning)).1 = Some (Foreign "OSError")
  ∧ outcome stop Faulty.scanning = Raise (Foreign "OSError")
  ∧ is_discovering (after stop Faulty.scanning) = true
  ∧ trace stop (after stop Faulty.scanning) = [MdnsStop].
Proof.
  split; [reflexivity|]. split; [reflexivity|].
  destruct (stop_background_failure Faulty.scanning (Foreign "OSError"))
    as (Hraise & _ & Hon & _ & _ & _ & Hagain); [reflexivity|reflexivity|].
  split; [exact Hraise|]. split; [exact Hon|exact Hagain].
Defined.

Lemma starts_and_stops_balance_witness :
  (∀ m : Stub.Mdns, (MDNS.start m).1 = None)
  ∧ (∀ m : Stub.Mdns, (MDNS.stop m).1 = None)
  ∧ calls MdnsStart
      (trace (run_ops [OpScan; OpScan; OpStop; OpStop; OpDiscover; OpScan]) Stub.idle)
    + 0 =
    calls MdnsStop
      (trace (run_ops [OpScan; OpScan; OpStop; OpStop; OpDiscover; OpScan]) Stub.idle)
    + 1.
Proof.
  assert (Hstart : ∀ m : Stub.Mdns, (MDNS.start m).1 = None) by reflexivity.
  assert (Hstop : ∀ m : Stub.Mdns, (MDNS.stop m).1 = None) by reflexivity.
  split; [exact Hstart|]. split; [exact Hstop|].
  exact (starts_and_stops_balance Stub.idle
           [OpScan; OpScan; OpStop; OpStop; OpDiscover; OpScan] Hstart Hstop).
Defined.

Lemma scanner_calls_bounded_witness :
  occurrences OpScan [OpDiscover; OpGetInfo "TypeA"; OpGetEntries "TypeB"] = 0
  ∧ occurrences OpStop [OpDiscover; OpGetInfo "TypeA"; OpGetEntries "TypeB"] = 0
  ∧ trace (run_ops [OpDiscover; OpGetInfo "TypeA"; OpGetEntries "TypeB"])
      (after scan Stub.idle) = [].
Proof.
  split; [reflexivity|]. split; [reflexivity|].
  apply (scanner_calls_bounded (after scan Stub.idle)
           [OpDiscover; OpGetInfo "TypeA"; OpGetEntries "TypeB"]); reflexivity.
Defined.
